(** * ProfCelerate: submission lifecycle and record synchronisation

    A shallow embedding of the assignment page
    ([src/pages/Dashboard/Assignment/assignment-page.tsx]), of the
    grading-criteria dialog
    ([src/pages/Dashboard/Assignment/assignment-details.tsx]) and of the
    class edit dialog, together with the properties their specification
    states about them.

    JavaScript values are an inductive type, objects are association lists
    in insertion order, strings are [string]s (one [ascii] per UTF-16 code
    unit, so the text whose code units are below 256; lengths, [trim] and
    the patterns are exact there, the case mappings on the ASCII range),
    and the
    handlers are programs of a small interaction type whose nodes are the
    awaited calls to the persistence boundary, the readings of the clock,
    the React state setters and the calls that leave the component
    (toasts, navigation, listener props). *)

From Stdlib Require Import List String Ascii ZArith Bool Arith Lia.
From Stdlib Require Import DecimalString.
From Stdlib Require Import Sorted.
Import ListNotations.

Local Open Scope string_scope.
Local Open Scope list_scope.
Local Open Scope nat_scope.

(* ================================================================== *)
(** ** Characters and strings, as the JavaScript string methods see them *)

Module Char.

Definition code (c : ascii) : nat := nat_of_ascii c.

(** [A-Z] *)
Definition is_upper (c : ascii) : bool :=
  (65 <=? code c) && (code c <=? 90).

(** [a-z] *)
Definition is_lower (c : ascii) : bool :=
  (97 <=? code c) && (code c <=? 122).

(** [0-9] *)
Definition is_digit (c : ascii) : bool :=
  (48 <=? code c) && (code c <=? 57).

Definition to_upper (c : ascii) : ascii :=
  if is_lower c then ascii_of_nat (code c - 32) else c.

Definition to_lower (c : ascii) : ascii :=
  if is_upper c then ascii_of_nat (code c + 32) else c.

(** The white space that [String.prototype.trim] removes, among the code
    units below 256: TAB, LF, VT, FF, CR, SPACE and the no-break space
    U+00A0. *)
Definition is_space (c : ascii) : bool :=
  ((9 <=? code c) && (code c <=? 13)) || (code c =? 32) || (code c =? 160).

Definition is_underscore (c : ascii) : bool := Ascii.eqb c "_"%char.

End Char.

Module Str.

Fixpoint forallb (p : ascii -> bool) (s : string) : bool :=
  match s with
  | EmptyString => true
  | String c r => p c && forallb p r
  end.

Fixpoint map (f : ascii -> ascii) (s : string) : string :=
  match s with
  | EmptyString => EmptyString
  | String c r => String (f c) (map f r)
  end.

(** [s.toUpperCase()] *)
Definition toUpperCase (s : string) : string := map Char.to_upper s.

(** [s.toLowerCase()] *)
Definition toLowerCase (s : string) : string := map Char.to_lower s.

Fixpoint trimStart (s : string) : string :=
  match s with
  | EmptyString => EmptyString
  | String c r => if Char.is_space c then trimStart r else s
  end.

(** Drops the white space at the end: a character is kept when it is not
    white space or when something is kept after it. *)
Fixpoint trimEnd (s : string) : string :=
  match s with
  | EmptyString => EmptyString
  | String c r =>
      match trimEnd r with
      | EmptyString => if Char.is_space c then EmptyString else String c EmptyString
      | r' => String c r'
      end
  end.

(** [s.trim()] *)
Definition trim (s : string) : string := trimEnd (trimStart s).

(** [s.length] *)
Definition len (s : string) : nat := String.length s.

End Str.

(* ================================================================== *)
(** ** Objects as association lists *)

Module Obj.

Section Assoc.
Context {A : Type}.

Definition entries : Type := list (string * A).

(** [o[k]]: the value of the own property [k], if there is one. *)
Fixpoint get (k : string) (o : entries) : option A :=
  match o with
  | [] => None
  | (k', v) :: rest => if String.eqb k' k then Some v else get k rest
  end.

(** [o[k] = v]: an existing property keeps its place, a new one goes
    last. *)
Fixpoint set (k : string) (v : A) (o : entries) : entries :=
  match o with
  | [] => [(k, v)]
  | (k', v') :: rest =>
      if String.eqb k' k then (k', v) :: rest
      else (k', v') :: set k v rest
  end.

Definition keys (o : entries) : list string := List.map fst o.

(** [acc[k] = v] for an entry [[k, v]]. *)
Definition assign (acc : entries) (kv : string * A) : entries :=
  set (fst kv) (snd kv) acc.

(** The object built by assigning the entries one after the other, as
    [Object.fromEntries] or a [reduce] over the keys does. *)
Definition fromEntries (es : entries) : entries :=
  fold_left assign es [].

Fixpoint mem (k : string) (ks : list string) : bool :=
  match ks with
  | [] => false
  | k' :: rest => String.eqb k' k || mem k rest
  end.

(** No key occurs twice: what every JavaScript object satisfies. *)
Fixpoint nodup_keys (ks : list string) : bool :=
  match ks with
  | [] => true
  | k :: rest => negb (mem k rest) && nodup_keys rest
  end.

End Assoc.

Arguments entries : clear implicits.

End Obj.

(* ================================================================== *)
(** ** JavaScript values *)

(** Numbers are the integers the code handles (file counts, points); a
    row of the persistence boundary is a [VObj], a result set a [VArr]. *)
Unset Elimination Schemes.
Inductive value : Type :=
| VUndefined
| VNull
| VBool (b : bool)
| VNum (n : Z)
| VStr (s : string)
| VArr (xs : list value)
| VObj (fields : list (string * value)).
Set Elimination Schemes.

Module Js.

(** Induction on values with the hypotheses for the elements of an array
    and for the property values of an object. *)
Definition value_ind
  (P : value -> Prop)
  (Hundef : P VUndefined) (Hnull : P VNull)
  (Hbool : forall b, P (VBool b)) (Hnum : forall n, P (VNum n))
  (Hstr : forall s, P (VStr s))
  (Harr : forall xs, Forall P xs -> P (VArr xs))
  (Hobj : forall fs, Forall (fun kv => P (snd kv)) fs -> P (VObj fs))
  : forall v, P v :=
  fix go (v : value) : P v :=
    match v with
    | VUndefined => Hundef
    | VNull => Hnull
    | VBool b => Hbool b
    | VNum n => Hnum n
    | VStr s => Hstr s
    | VArr xs =>
        Harr xs
          ((fix elems (l : list value) : Forall P l :=
              match l with
              | [] => Forall_nil P
              | x :: l' => Forall_cons x (go x) (elems l')
              end) xs)
    | VObj fs =>
        Hobj fs
          ((fix props (l : list (string * value))
              : Forall (fun kv => P (snd kv)) l :=
              match l with
              | [] => Forall_nil _
              | kv :: l' => Forall_cons kv (go (snd kv)) (props l')
              end) fs)
    end.

(** [!!v] *)
Definition truthy (v : value) : bool :=
  match v with
  | VUndefined | VNull => false
  | VBool b => b
  | VNum n => negb (Z.eqb n 0)
  | VStr s => negb (String.eqb s "")
  | VArr _ | VObj _ => true
  end.

(** [a || b] *)
Definition or (a b : value) : value := if truthy a then a else b.

(** [v.k] for a value that is not [null] or [undefined]: the own property
    of an object, [undefined] otherwise. *)
Definition prop (v : value) (k : string) : value :=
  match v with
  | VObj fs => match Obj.get k fs with Some x => x | None => VUndefined end
  | _ => VUndefined
  end.

(** [v.k = x] on an object. *)
Definition set_prop (v : value) (k : string) (x : value) : value :=
  match v with
  | VObj fs => VObj (Obj.set k x fs)
  | _ => v
  end.

(** [v == null]: the values a property cannot be read from. *)
Definition nullish (v : value) : bool :=
  match v with
  | VUndefined | VNull => true
  | _ => false
  end.

(** [`${v}`]: the string a template literal puts in the place of [v]. *)
Fixpoint to_string (v : value) : string :=
  match v with
  | VUndefined => "undefined"
  | VNull => "null"
  | VBool true => "true"
  | VBool false => "false"
  | VNum n => NilZero.string_of_int (Z.to_int n)
  | VStr s => s
  | VArr xs =>
      String.concat ","
        (List.map (fun x => if nullish x then "" else to_string x) xs)
  | VObj _ => "[object Object]"
  end.

End Js.

(* ================================================================== *)
(** ** The naming transform ([@/lib/caseConversion]) *)

Module CaseConversion.

(** Modelled from the spec: [toCamelCase] of [@/lib/caseConversion], which
    the sources import but do not contain.  The spec (2, 4.1) maps the
    persisted convention, snake-cased keys, to the canonical one,
    camel-cased keys, under one casing rule that every key goes through:
    an underscore followed by a lower-case letter becomes that letter in
    upper case, i.e. [key.replace(/_([a-z])/g, (_, c) => c.toUpperCase())].
    The rule is total: what it finds nothing to rewrite in, an unknown or
    a malformed key included, passes through unchanged. *)
Fixpoint toCamelCase (s : string) : string :=
  match s with
  | EmptyString => EmptyString
  | String c rest =>
      if Char.is_underscore c then
        match rest with
        | String d rest' =>
            if Char.is_lower d then String (Char.to_upper d) (toCamelCase rest')
            else String c (toCamelCase rest)
        | EmptyString => String c EmptyString
        end
      else String c (toCamelCase rest)
  end.

(** Modelled from the spec: [toSnakeCase] of [@/lib/caseConversion], the
    inverse casing rule (2, 4.1): an upper-case letter becomes an
    underscore followed by that letter in lower case, i.e.
    [key.replace(/[A-Z]/g, c => '_' + c.toLowerCase())]. *)
Fixpoint toSnakeCase (s : string) : string :=
  match s with
  | EmptyString => EmptyString
  | String c rest =>
      if Char.is_upper c
      then String "_"%char (String (Char.to_lower c) (toSnakeCase rest))
      else String c (toSnakeCase rest)
  end.

(** Modelled from the spec: the traversal that [transformToCamelCase] and
    [transformToSnakeCase] of [@/lib/caseConversion] share.  The spec (4.1)
    applies the key rule recursively to nested mappings and to sequences
    of records, never to scalar contents, drops nothing and keeps the
    order of the keys: the elements of an array and the properties of an
    object are rebuilt in order, each property under its converted key. *)
Fixpoint transformKeys (f : string -> string) (v : value) : value :=
  match v with
  | VArr xs => VArr (List.map (transformKeys f) xs)
  | VObj fs =>
      VObj (Obj.fromEntries
              (List.map (fun kv => (f (fst kv), transformKeys f (snd kv))) fs))
  | _ => v
  end.

(** The entry a property becomes under the traversal. *)
Definition convert (g : string -> string) (kv : string * value)
  : string * value :=
  (g (fst kv), transformKeys g (snd kv)).

(** Modelled from the spec: [transformToCamelCase] of
    [@/lib/caseConversion], persisted form to canonical form (4.1). *)
Definition transformToCamelCase (v : value) : value :=
  transformKeys toCamelCase v.

(** Modelled from the spec: [transformToSnakeCase] of
    [@/lib/caseConversion], canonical form to persisted form (4.1). *)
Definition transformToSnakeCase (v : value) : value :=
  transformKeys toSnakeCase v.

(** A camel-cased key has no underscore. *)
Definition camel_key (k : string) : bool :=
  Str.forallb (fun c => negb (Char.is_underscore c)) k.

(** A snake-cased key has no upper-case letter. *)
Definition snake_key (k : string) : bool :=
  Str.forallb (fun c => negb (Char.is_upper c)) k.

(** [well_keyed p v]: every object inside [v] has pairwise different keys,
    all of which satisfy [p]. *)
Fixpoint well_keyed (p : string -> bool) (v : value) : bool :=
  match v with
  | VArr xs => List.forallb (well_keyed p) xs
  | VObj fs =>
      Obj.nodup_keys (Obj.keys fs)
      && List.forallb (fun kv => p (fst kv) && well_keyed p (snd kv)) fs
  | _ => true
  end.

(** A valid canonical record: camel-cased keys throughout. *)
Definition canonical (v : value) : bool := well_keyed camel_key v.

(** A valid persisted record: snake-cased keys throughout. *)
Definition persisted (v : value) : bool := well_keyed snake_key v.

(** The field names of the persistence boundary (spec, 6), with the
    identifier and the assignment fields of the data model (spec, 3). *)
Definition schema_keys : list string :=
  [ "id"; "title"; "description"; "department"; "code"; "schedule"; "term";
    "status"; "type"; "points"; "grading_criteria"; "created_at";
    "updated_at"; "assignment_id"; "batch_name"; "file_count" ].

Definition schema_key (k : string) : bool := Obj.mem k schema_keys.

(** A persisted record that only contains keys known to the schema. *)
Definition schema_record (v : value) : bool := well_keyed schema_key v.

End CaseConversion.

(* ================================================================== *)
(** ** The persistence boundary and the programs that talk to it *)

(** What a rejected call carries: [error.message]. *)
Record JsError : Type := { message : string }.

(** The four query shapes the sources build on the [supabase] client:
    - [SelectSingle t c v] is [from(t).select('*').eq(c, v).single()];
    - [SelectOrdered t c v o a] is
      [from(t).select('*').eq(c, v).order(o, { ascending: a })];
    - [InsertSingle t row] is [from(t).insert(row).select().single()];
    - [UpdateSingle t patch c v] is
      [from(t).update(patch).eq(c, v).select().single()]. *)
Inductive request : Type :=
| SelectSingle (table col : string) (v : value)
| SelectOrdered (table col : string) (v : value)
                (orderBy : string) (ascending : bool)
| InsertSingle (table : string) (row : value)
| UpdateSingle (table : string) (patch : value) (col : string) (v : value).

(** The [{ data, error }] pair every query resolves to. *)
Record response : Type := { data : value; error : option JsError }.

(** The calls that leave a component. *)
Inductive event : Type :=
| ToastSuccess (msg : string)
| ToastError (msg : string)
| Navigate (path : string)
| OnAssignmentUpdated (a : value)
| OnOpenChange (o : bool)
| OnClassUpdated (c : value)
| SetOpen (o : bool).

(** An event handler over the component state [S]: it awaits the boundary,
    reads the clock ([new Date().toISOString()]), calls a state setter or
    makes a call that leaves the component.  The [console] calls of the
    sources change nothing and are left out. *)
Inductive prog (S : Type) : Type :=
| Done
| Await (r : request) (k : response -> prog S)
| NewDate (k : string -> prog S)
| SetState (f : S -> S) (k : prog S)
| Emit (e : event) (k : prog S).

Arguments Done {S}.
Arguments Await {S} r k.
Arguments NewDate {S} k.
Arguments SetState {S} f k.
Arguments Emit {S} e k.

(** [await p; q] *)
Fixpoint andThen {S : Type} (p q : prog S) : prog S :=
  match p with
  | Done => q
  | Await r k => Await r (fun x => andThen (k x) q)
  | NewDate k => NewDate (fun d => andThen (k d) q)
  | SetState f k => SetState f (andThen k q)
  | Emit e k => Emit e (andThen k q)
  end.

(** What an observer outside the component sees of a run. *)
Inductive obs : Type :=
| Requested (r : request)
| Emitted (e : event).

Record outcome (S W : Type) : Type :=
  { final : S; world : W; trace : list obs }.

Arguments final {S W} o.
Arguments world {S W} o.
Arguments trace {S W} o.

Definition observe {S W : Type} (o : obs) (out : outcome S W) : outcome S W :=
  {| final := final out; world := world out; trace := o :: trace out |}.

Section Run.
Context {S W : Type}.

(** The world outside: how the boundary answers a request and what the
    clock reads, each with the state the world is left in. *)
Variable serve : request -> W -> response * W.
Variable clock : W -> string * W.

Fixpoint run (p : prog S) (s : S) (w : W) : outcome S W :=
  match p with
  | Done => {| final := s; world := w; trace := [] |}
  | Await r k =>
      let (resp, w') := serve r w in
      observe (Requested r) (run (k resp) s w')
  | NewDate k =>
      let (d, w') := clock w in run (k d) s w'
  | SetState f k => run k (f s) w
  | Emit e k => observe (Emitted e) (run k s w)
  end.

End Run.

(** The requests of a trace, in the order they were issued. *)
Fixpoint requests (t : list obs) : list request :=
  match t with
  | [] => []
  | Requested r :: t' => r :: requests t'
  | Emitted _ :: t' => requests t'
  end.

(** The row or the patch that a request carries to the boundary. *)
Definition sent (r : request) : value :=
  match r with
  | InsertSingle _ row => row
  | UpdateSingle _ patch _ _ => patch
  | SelectSingle _ _ _ | SelectOrdered _ _ _ _ _ => VUndefined
  end.

(** The calls of a trace that left the component. *)
Fixpoint events (t : list obs) : list event :=
  match t with
  | [] => []
  | Requested _ :: t' => events t'
  | Emitted e :: t' => e :: events t'
  end.

(** A world that answers from a script: the responses of the boundary and
    the readings of the clock, in the order they will be asked for. *)
Module Script.

Record world : Type := { answers : list response; times : list string }.

Definition offline : response :=
  {| data := VNull; error := Some {| message := "Failed to fetch" |} |}.

Definition serve (_ : request) (w : world) : response * world :=
  match answers w with
  | a :: rest => (a, {| answers := rest; times := times w |})
  | [] => (offline, w)
  end.

Definition clock (w : world) : string * world :=
  match times w with
  | t :: rest => (t, {| answers := answers w; times := rest |})
  | [] => ("1970-01-01T00:00:00.000Z", w)
  end.

Definition ok (v : value) : response := {| data := v; error := None |}.

Definition failed (msg : string) : response :=
  {| data := VNull; error := Some {| message := msg |} |}.

End Script.

(** [msg || fallback] on strings. *)
Definition orElse (msg fallback : string) : string :=
  if String.eqb msg "" then fallback else msg.

(* ================================================================== *)
(** ** [assignment-page.tsx]: the assignment page *)

Module AssignmentPage.

Import CaseConversion.

(** [interface SubmissionBatch] *)
Record SubmissionBatch : Type :=
  { id : value;
    name : value;
    uploadedAt : value;
    status : value;
    fileCount : value }.

(** The [useState] cells of the component. *)
Record State : Type :=
  { loading : bool;
    assignment : value;
    submissions : list SubmissionBatch;
    activeTab : string;
    refreshing : bool;
    showUploadForm : bool;
    showEditDialog : bool }.

(** [useParams()] *)
Record Params : Type := { classId : string; assignmentId : string }.

(** The state of the first render. *)
Definition initial : State :=
  {| loading := true; assignment := VNull; submissions := [];
     activeTab := "details"; refreshing := false;
     showUploadForm := false; showEditDialog := false |}.

Definition setLoading (b : bool) (s : State) : State :=
  {| loading := b; assignment := assignment s;
     submissions := submissions s; activeTab := activeTab s;
     refreshing := refreshing s; showUploadForm := showUploadForm s;
     showEditDialog := showEditDialog s |}.

Definition setAssignment (a : value) (s : State) : State :=
  {| loading := loading s; assignment := a;
     submissions := submissions s; activeTab := activeTab s;
     refreshing := refreshing s; showUploadForm := showUploadForm s;
     showEditDialog := showEditDialog s |}.

Definition setSubmissions (bs : list SubmissionBatch) (s : State) : State :=
  {| loading := loading s; assignment := assignment s;
     submissions := bs; activeTab := activeTab s;
     refreshing := refreshing s; showUploadForm := showUploadForm s;
     showEditDialog := showEditDialog s |}.

Definition setRefreshing (b : bool) (s : State) : State :=
  {| loading := loading s; assignment := assignment s;
     submissions := submissions s; activeTab := activeTab s;
     refreshing := b; showUploadForm := showUploadForm s;
     showEditDialog := showEditDialog s |}.

Definition setShowUploadForm (b : bool) (s : State) : State :=
  {| loading := loading s; assignment := assignment s;
     submissions := submissions s; activeTab := activeTab s;
     refreshing := refreshing s; showUploadForm := b;
     showEditDialog := showEditDialog s |}.

(** The [TypeError] of reading a property of [null] or [undefined]. *)
Definition cannotRead (k : string) : JsError :=
  {| message := "Cannot read properties of null (reading '" ++ k ++ "')" |}.

(** The object literal that both the [map] callback of
    [fetchAssignmentData] and [handleSubmitFiles] build from a camel-cased
    submission row; reading [.id] of [null] or [undefined] throws. *)
Definition toBatch (c : value) : JsError + SubmissionBatch :=
  if Js.nullish c then inl (cannotRead "id")
  else inr {| id := Js.prop c "id";
              name := Js.or (Js.prop c "batchName")
                            (VStr ("Batch " ++ Js.to_string (Js.prop c "id")));
              uploadedAt := Js.prop c "createdAt";
              status := Js.prop c "status";
              fileCount := Js.or (Js.prop c "fileCount") (VNum 0) |}.

(** [rows.map(f)] for a callback that may throw: the first exception ends
    the loop. *)
Fixpoint mapOrThrow {A B : Type} (f : A -> JsError + B) (l : list A)
  : JsError + list B :=
  match l with
  | [] => inr []
  | x :: rest =>
      match f x with
      | inl e => inl e
      | inr y =>
          match mapOrThrow f rest with
          | inl e => inl e
          | inr ys => inr (y :: ys)
          end
      end
  end.

(** [(submissionsData || []).map(...)]: only an array has [map]. *)
Definition transformSubmissions (submissionsData : value)
  : JsError + list SubmissionBatch :=
  match Js.or submissionsData (VArr []) with
  | VArr rows => mapOrThrow (fun sub => toBatch (transformToCamelCase sub)) rows
  | _ => inl {| message := "(submissionsData || []).map is not a function" |}
  end.

(** Lines 81 to 92: the record lacks one of its dates. *)
Definition missingDates (a : value) : bool :=
  negb (Js.truthy (Js.prop a "createdAt"))
  || negb (Js.truthy (Js.prop a "updatedAt")).

Definition withDates (created updated : string) (a : value) : value :=
  Js.set_prop (Js.set_prop a "createdAt" (VStr created))
              "updatedAt" (VStr updated).

Definition assignmentQuery (p : Params) : request :=
  SelectSingle "assignments" "id" (VStr (assignmentId p)).

Definition submissionsQuery (p : Params) : request :=
  SelectOrdered "submissions" "assignment_id" (VStr (assignmentId p))
                "created_at" false.

(** [fetchAssignmentData], lines 64 to 132. *)
Definition fetchAssignmentData (p : Params) : prog State :=
  let finally := SetState (setLoading false) Done in
  let catch (e : JsError) :=
    Emit (ToastError (orElse (message e) "Failed to load assignment data"))
      (if String.eqb (message e) "Assignment not found"
       then Emit (Navigate ("/dashboard/classes/" ++ classId p)) finally
       else finally) in
  let fetchSubmissions :=
    Await (submissionsQuery p) (fun r =>
      match error r with
      | Some e => catch e
      | None =>
          match transformSubmissions (data r) with
          | inl e => catch e
          | inr transformedSubmissions =>
              SetState (setSubmissions transformedSubmissions) finally
          end
      end) in
  Await (assignmentQuery p) (fun r =>
    match error r with
    | Some e => catch e
    | None =>
        if negb (Js.truthy (data r))
        then catch {| message := "Assignment not found" |}
        else
          let transformedAssignment := transformToCamelCase (data r) in
          if missingDates transformedAssignment
          then
            NewDate (fun created => NewDate (fun updated =>
              SetState
                (setAssignment (withDates created updated transformedAssignment))
                fetchSubmissions))
          else SetState (setAssignment transformedAssignment) fetchSubmissions
    end).

(** [handleRefresh], lines 138 to 142. *)
Definition handleRefresh (p : Params) : prog State :=
  SetState (setRefreshing true)
    (andThen (fetchAssignmentData p) (SetState (setRefreshing false) Done)).

(** [handleBack], lines 144 to 146. *)
Definition handleBack (p : Params) : prog State :=
  Emit (Navigate ("/dashboard/classes/" ++ classId p)) Done.

(** An uploaded [File]; the handler only counts them. *)
Definition File : Type := string.

Definition submissionInsert (p : Params) (files : list File)
                            (batchName : string) : request :=
  InsertSingle "submissions"
    (transformToSnakeCase
       (VObj [ ("assignment_id", VStr (assignmentId p));
               ("batch_name", VStr batchName);
               ("file_count", VNum (Z.of_nat (List.length files)));
               ("status", VStr "grading") ])).

(** [handleSubmitFiles], lines 148 to 193.  [seen] is the render the
    handler closes over: [submissions] in line 186 is its batch list. *)
Definition handleSubmitFiles (p : Params) (seen : State)
    (files : list File) (batchName : string) : prog State :=
  let catch (e : JsError) :=
    Emit (ToastError (orElse (message e) "Failed to upload files")) Done in
  Await (submissionInsert p files batchName) (fun r =>
    match error r with
    | Some e => catch e
    | None =>
        match toBatch (transformToCamelCase (data r)) with
        | inl e => catch e
        | inr newBatch =>
            SetState (setSubmissions (newBatch :: submissions seen))
              (SetState (setShowUploadForm false)
                 (Emit (ToastSuccess "Files uploaded successfully") Done))
        end
    end).

(** [handleAssignmentUpdated], lines 195 to 203. *)
Definition handleAssignmentUpdated (updatedAssignment : value) : prog State :=
  SetState (setAssignment (transformToCamelCase updatedAssignment)) Done.

End AssignmentPage.

(* ================================================================== *)
(** ** [assignment-details.tsx]: the grading-criteria dialog *)

Module EditGradingCriteriaDialog.

Import CaseConversion.

(** The props the handler reads; [onAssignmentUpdated] and [onOpenChange]
    are calls that leave the component. *)
Record Props : Type := { assignment : value }.

Record State : Type := { loading : bool; gradingCriteria : string }.

Definition setLoading (b : bool) (s : State) : State :=
  {| loading := b; gradingCriteria := gradingCriteria s |}.

Definition setGradingCriteria (g : string) (s : State) : State :=
  {| loading := loading s; gradingCriteria := g |}.

(** Lines 77 to 80. *)
Definition transformedData (g now : string) : value :=
  transformToSnakeCase
    (VObj [ ("grading_criteria", VStr g); ("updated_at", VStr now) ]).

Definition criteriaUpdate (props : Props) (g now : string) : request :=
  UpdateSingle "assignments" (transformedData g now)
               "id" (Js.prop (assignment props) "id").

(** [handleSubmit], lines 72 to 101.  [seen] is the render the handler
    closes over: [gradingCriteria] is the text of its textarea. *)
Definition handleSubmit (props : Props) (seen : State) : prog State :=
  let finally := SetState (setLoading false) Done in
  SetState (setLoading true)
    (NewDate (fun now =>
       Await (criteriaUpdate props (gradingCriteria seen) now) (fun r =>
         match error r with
         | Some e =>
             Emit (ToastError
                     (orElse (message e) "Failed to update grading criteria"))
                  finally
         | None =>
             Emit (OnAssignmentUpdated (transformToCamelCase (data r)))
               (Emit (OnOpenChange false)
                  (Emit (ToastSuccess "Grading criteria updated successfully")
                     finally))
         end))).

End EditGradingCriteriaDialog.

(* ================================================================== *)
(** ** [assignment-details.tsx]: the form of the grading-criteria dialog *)

Module CriteriaForm.

Import EditGradingCriteriaDialog.

(** The submission of [<form onSubmit={handleSubmit}>], line 129, whose
    only field is the textarea of lines 141 to 148, marked [required]:
    the browser submits the form, and so calls the handler, only when the
    text is not empty; it checks nothing else and changes nothing in the
    text. *)
Definition onSubmit (props : Props) (seen : State) : prog State :=
  if String.eqb (gradingCriteria seen) "" then Done
  else handleSubmit props seen.

End CriteriaForm.

(* ================================================================== *)
(** ** The class edit dialog ([EditClassDialog]) *)

Module EditClassDialog.

(** A field-level violation: the offending field and the reason. *)
Record Issue : Type := { path : string; reason : string }.

(** The checks of a [z.string()] chain, run in the order they are
    chained on what the checks before them left. *)
Inductive check : Type :=
| Min (n : nat) (msg : string)
| Max (n : nat) (msg : string)
| Regex (matches : string -> bool) (msg : string)
| Trim.

Fixpoint runChecks (cs : list check) (s : string) : list string * string :=
  match cs with
  | [] => ([], s)
  | Min n msg :: rest =>
      let (errs, out) := runChecks rest s in
      (if Str.len s <? n then msg :: errs else errs, out)
  | Max n msg :: rest =>
      let (errs, out) := runChecks rest s in
      (if n <? Str.len s then msg :: errs else errs, out)
  | Regex matches msg :: rest =>
      let (errs, out) := runChecks rest s in
      (if matches s then errs else msg :: errs, out)
  | Trim :: rest => runChecks rest (Str.trim s)
  end.

(** [/^[A-Z0-9]+$/i] *)
Definition alphanumeric (s : string) : bool :=
  negb (String.eqb s "")
  && Str.forallb (fun c => Char.is_upper c || Char.is_lower c || Char.is_digit c) s.

(** [z.enum(options)] *)
Definition runEnum (options : list string) (s : string) : list string :=
  if Obj.mem s options then [] else ["Invalid enum value"].

Definition departmentOptions : list string :=
  [ "Language"; "Computer Science"; "Mathematics"; "Physics"; "Chemistry";
    "Biology"; "Engineering" ].

(** [type FormData = z.infer<typeof editClassSchema>] *)
Record FormData : Type :=
  { title : string;
    description : string;
    department : string;
    code : string;
    schedule : string;
    term : string;
    status : string }.

Definition titleChecks : list check :=
  [ Min 3 "Title must be at least 3 characters";
    Max 100 "Title must be less than 100 characters";
    Trim ].

Definition descriptionChecks : list check :=
  [ Min 10 "Description must be at least 10 characters";
    Max 500 "Description must be less than 500 characters";
    Trim ].

Definition codeChecks : list check :=
  [ Min 2 "Class code must be at least 2 characters";
    Max 10 "Class code must be less than 10 characters";
    Regex alphanumeric "Class code must be alphanumeric";
    Trim ].

Definition scheduleChecks : list check := [ Min 1 "Schedule is required"; Trim ].

Definition termChecks : list check := [ Min 1 "Term is required"; Trim ].

Definition at_path (p : string) (msgs : list string) : list Issue :=
  List.map (fun m => {| path := p; reason := m |}) msgs.

(** [editClassSchema.safeParse(values)], lines 46 to 69: the violations of
    all the fields, or the normalized payload when there is none. *)
Definition editClassSchema (values : FormData) : list Issue + FormData :=
  let (eTitle, vTitle) := runChecks titleChecks (title values) in
  let (eDescription, vDescription) :=
    runChecks descriptionChecks (description values) in
  let eDepartment := runEnum departmentOptions (department values) in
  let (eCode, vCode) := runChecks codeChecks (code values) in
  let (eSchedule, vSchedule) := runChecks scheduleChecks (schedule values) in
  let (eTerm, vTerm) := runChecks termChecks (term values) in
  let eStatus := runEnum ["active"; "inactive"] (status values) in
  match at_path "title" eTitle ++ at_path "description" eDescription
        ++ at_path "department" eDepartment ++ at_path "code" eCode
        ++ at_path "schedule" eSchedule ++ at_path "term" eTerm
        ++ at_path "status" eStatus with
  | [] => inr {| title := vTitle; description := vDescription;
                 department := department values; code := vCode;
                 schedule := vSchedule; term := vTerm;
                 status := status values |}
  | issues => inl issues
  end.

(** The props the handler reads; [onClassUpdated] and [setOpen] are calls
    that leave the component. *)
Record Props : Type := { classData : value }.

(** [loading] and the [formState.errors] of the form. *)
Record State : Type := { loading : bool; errors : list Issue }.

Definition setLoading (b : bool) (s : State) : State :=
  {| loading := b; errors := errors s |}.

Definition setErrors (es : list Issue) (s : State) : State :=
  {| loading := loading s; errors := es |}.

(** The object literal of lines 100 to 109. *)
Definition classPatch (formData : FormData) (now : string) : value :=
  VObj [ ("title", VStr (title formData));
         ("description", VStr (description formData));
         ("department", VStr (department formData));
         ("code", VStr (Str.toUpperCase (code formData)));
         ("schedule", VStr (schedule formData));
         ("term", VStr (term formData));
         ("status", VStr (status formData));
         ("updated_at", VStr now) ].

Definition classUpdate (props : Props) (formData : FormData) (now : string)
  : request :=
  UpdateSingle "classes" (classPatch formData now)
               "id" (Js.prop (classData props) "id").

(** [handleSubmit], lines 94 to 125. *)
Definition handleSubmit (props : Props) (formData : FormData) : prog State :=
  let finally := SetState (setLoading false) Done in
  SetState (setLoading true)
    (NewDate (fun now =>
       Await (classUpdate props formData now) (fun r =>
         match error r with
         | Some e =>
             Emit (ToastError (orElse (message e) "Failed to update class"))
                  finally
         | None =>
             Emit (OnClassUpdated (data r))
               (Emit (ToastSuccess "Class updated successfully!")
                  (Emit (SetOpen false) finally))
         end))).

(** [form.handleSubmit(handleSubmit)], line 142: the resolver runs the
    schema on the values of the form; the handler is called with the
    parsed payload only when there is no violation, otherwise the
    violations become the errors of the form. *)
Definition onSubmit (props : Props) (values : FormData) : prog State :=
  match editClassSchema values with
  | inr formData => SetState (setErrors []) (handleSubmit props formData)
  | inl issues => SetState (setErrors issues) Done
  end.

End EditClassDialog.

(* ================================================================== *)
(** ** The general assignment edit ([EditAssignmentDialog]) *)

Module EditAssignmentDialog.

Import CaseConversion.

(** Modelled from the spec: the props of
    [@/components/autograder/edit-assignment-dialog], which the page
    renders with its assignment (lines 339 to 346) but which is not among
    the sources. *)
Record Props : Type := { assignment : value }.

(** Modelled from the spec: the state of the dialog, as the two dialogs
    of the sources have it. *)
Record State : Type := { loading : bool }.

Definition setLoading (b : bool) (s : State) : State := {| loading := b |}.

(** Modelled from the spec: the fields of an assignment that the general
    edit carries.  The spec (3) gives an assignment a title, a
    description, a type, its points and its grading criteria, and has the
    grading criteria mutated through the dedicated path only, never
    through the general edit. *)
Record FormData : Type :=
  { title : string;
    description : string;
    type : string;
    points : Z }.

(** Modelled from the spec: the patch of the general edit; a mutation
    (4.3) is converted to persisted form and refreshes [updatedAt] in the
    same update. *)
Definition assignmentPatch (formData : FormData) (now : string) : value :=
  transformToSnakeCase
    (VObj [ ("title", VStr (title formData));
            ("description", VStr (description formData));
            ("type", VStr (type formData));
            ("points", VNum (points formData));
            ("updatedAt", VStr now) ]).

Definition assignmentUpdate (props : Props) (formData : FormData)
                            (now : string) : request :=
  UpdateSingle "assignments" (assignmentPatch formData now)
               "id" (Js.prop (assignment props) "id").

(** Modelled from the spec: the submit handler of
    [@/components/autograder/edit-assignment-dialog], with the steps of a
    record mutation (4.3): the patch is submitted as a partial update
    scoped to [id], the row read back is converted to canonical form and
    passed to the listener; a failure is surfaced as one notice (7). *)
Definition handleSubmit (props : Props) (formData : FormData) : prog State :=
  let finally := SetState (setLoading false) Done in
  SetState (setLoading true)
    (NewDate (fun now =>
       Await (assignmentUpdate props formData now) (fun r =>
         match error r with
         | Some e =>
             Emit (ToastError (orElse (message e) "Failed to update assignment"))
                  finally
         | None =>
             Emit (OnAssignmentUpdated (transformToCamelCase (data r)))
               (Emit (OnOpenChange false)
                  (Emit (ToastSuccess "Assignment updated successfully")
                     finally))
         end))).

End EditAssignmentDialog.

(* ================================================================== *)
(** ** What the boundary does with a partial update *)

Module Store.

(** Modelled from the spec: the persistence engine is outside the
    repository; the spec (4.3, 6) describes its update as a partial update
    of the row scoped by [id]: the columns named in the patch take the
    values of the patch, the row keeps every other column. *)
Definition applyPatch (row patch : value) : value :=
  match row, patch with
  | VObj r, VObj p =>
      VObj (fold_left Obj.assign p r)
  | _, _ => row
  end.

End Store.

(* ================================================================== *)
(** ** The paths that reach the boundary, and sample data *)

Module Paths.

(** A request that writes the [assignments] table. *)
Definition writesAssignments (r : request) : bool :=
  match r with
  | UpdateSingle table _ _ _ => String.eqb table "assignments"
  | InsertSingle table _ => String.eqb table "assignments"
  | SelectSingle _ _ _ | SelectOrdered _ _ _ _ _ => false
  end.

(** A request that writes the [grading_criteria] of an assignment. *)
Definition writesCriteria (r : request) : bool :=
  match r with
  | UpdateSingle table (VObj fields) _ _ | InsertSingle table (VObj fields) =>
      String.eqb table "assignments"
      && Obj.mem "grading_criteria" (Obj.keys fields)
  | _ => false
  end.

(** The handlers other than the grading-criteria dialog's [handleSubmit]:
    those of the page, the submission of the class form and the general
    assignment edit. *)
Inductive other : Type :=
| FetchAssignmentData (p : AssignmentPage.Params)
| HandleRefresh (p : AssignmentPage.Params)
| HandleBack (p : AssignmentPage.Params)
| HandleSubmitFiles (p : AssignmentPage.Params) (seen : AssignmentPage.State)
                    (files : list AssignmentPage.File) (batchName : string)
| HandleAssignmentUpdated (updatedAssignment : value)
| ClassOnSubmit (props : EditClassDialog.Props)
                (values : EditClassDialog.FormData)
| GeneralEdit (props : EditAssignmentDialog.Props)
              (formData : EditAssignmentDialog.FormData).

(** The handlers whose source is among the sources. *)
Definition inSources (path : other) : bool :=
  match path with
  | GeneralEdit _ _ => false
  | _ => true
  end.

(** The component states a path may start from. *)
Record states : Type :=
  { page : AssignmentPage.State;
    classDialog : EditClassDialog.State;
    assignmentDialog : EditAssignmentDialog.State }.

Section Requests.
Context {W : Type}.
Variable serve : request -> W -> response * W.
Variable clock : W -> string * W.

(** The requests a path issues. *)
Definition requestsOf (path : other) (st : states) (w : W) : list request :=
  let onPage prg := requests (trace (run serve clock prg (page st) w)) in
  match path with
  | FetchAssignmentData p => onPage (AssignmentPage.fetchAssignmentData p)
  | HandleRefresh p => onPage (AssignmentPage.handleRefresh p)
  | HandleBack p => onPage (AssignmentPage.handleBack p)
  | HandleSubmitFiles p seen files batchName =>
      onPage (AssignmentPage.handleSubmitFiles p seen files batchName)
  | HandleAssignmentUpdated a =>
      onPage (AssignmentPage.handleAssignmentUpdated a)
  | ClassOnSubmit props values =>
      requests (trace (run serve clock (EditClassDialog.onSubmit props values)
                           (classDialog st) w))
  | GeneralEdit props formData =>
      requests (trace (run serve clock
                           (EditAssignmentDialog.handleSubmit props formData)
                           (assignmentDialog st) w))
  end.

(** Lines 81 to 94 of the page, as a function of the clock: the record
    that [setAssignment] receives and the world the two readings leave. *)
Definition stamped (a : value) (w : W) : value * W :=
  if AssignmentPage.missingDates a then
    let (created, w1) := clock w in
    let (updated, w2) := clock w1 in
    (AssignmentPage.withDates created updated a, w2)
  else (a, w).

End Requests.

(** A row of a result set: an object in persisted form. *)
Definition isRow (v : value) : bool :=
  match v with
  | VObj _ => CaseConversion.persisted v
  | _ => false
  end.

(** What the page reads from a column of a row: the column goes through
    [transformToCamelCase] with the row (a scalar comes out as it is). *)
Definition column (row : value) (k : string) : value :=
  CaseConversion.transformToCamelCase (Js.prop row k).

(** The batch the page shows for a row of [submissions]. *)
Definition rowBatch (row : value) : AssignmentPage.SubmissionBatch :=
  {| AssignmentPage.id := column row "id";
     AssignmentPage.name :=
       Js.or (column row "batch_name")
             (VStr ("Batch " ++ Js.to_string (column row "id")));
     AssignmentPage.uploadedAt := column row "created_at";
     AssignmentPage.status := column row "status";
     AssignmentPage.fileCount := Js.or (column row "file_count") (VNum 0) |}.

(** The row the insert of [handleSubmitFiles] sends. *)
Definition insertedRow (p : AssignmentPage.Params) (count : nat)
                       (batchName : string) : value :=
  VObj [ ("assignment_id", VStr (AssignmentPage.assignmentId p));
         ("batch_name", VStr batchName);
         ("file_count", VNum (Z.of_nat count));
         ("status", VStr "grading") ].

End Paths.

Module Samples.

Import AssignmentPage.

Definition params : Params := {| classId := "c1"; assignmentId := "a1" |}.

Definition oldAssignment : value :=
  VObj [ ("id", VStr "a1"); ("title", VStr "Essay");
         ("createdAt", VStr "2025-01-01T00:00:00.000Z");
         ("updatedAt", VStr "2025-01-01T00:00:00.000Z") ].

Definition newAssignmentRow : value :=
  VObj [ ("id", VStr "a1"); ("title", VStr "Essay, second draft");
         ("created_at", VStr "2025-01-01T00:00:00.000Z");
         ("updated_at", VStr "2025-02-02T00:00:00.000Z") ].

Definition oldBatch : SubmissionBatch :=
  {| id := VStr "s1"; name := VStr "Week 1";
     uploadedAt := VStr "2025-01-05T00:00:00.000Z";
     status := VStr "completed"; fileCount := VNum 4 |}.

(** A page that has committed an assignment and one batch. *)
Definition committed : State :=
  {| loading := false; assignment := oldAssignment;
     submissions := [oldBatch]; activeTab := "submissions";
     refreshing := false; showUploadForm := true;
     showEditDialog := false |}.

(** The assignment fetch succeeds, the batch fetch fails. *)
Definition batchFetchFails : Script.world :=
  {| Script.answers := [ Script.ok newAssignmentRow;
                         Script.failed "connection reset" ];
     Script.times := [] |}.

Definition submissionRow (i name created : string) (count : Z) : value :=
  VObj [ ("id", VStr i); ("assignment_id", VStr "a1");
         ("batch_name", VStr name); ("file_count", VNum count);
         ("status", VStr "grading"); ("created_at", VStr created) ].

(** The boundary accepts the insert of an upload without files. *)
Definition emptyUploadAccepted : Script.world :=
  {| Script.answers :=
       [ Script.ok (submissionRow "s2" "X" "2025-03-01T00:00:00.000Z" 0) ];
     Script.times := [] |}.

(** The boundary accepts the insert of three files without a name. *)
Definition threeFilesAccepted : Script.world :=
  {| Script.answers :=
       [ Script.ok (submissionRow "s3" "" "2025-03-02T00:00:00.000Z" 3) ];
     Script.times := [] |}.

Definition rowA : value := submissionRow "a" "A" "2025-03-01T00:00:00.000Z" 1.
Definition rowB : value := submissionRow "b" "B" "2025-03-01T00:00:00.000Z" 1.

(** Two batches created at the same time, returned in either order. *)
Definition tiedAB : Script.world :=
  {| Script.answers := [ Script.ok newAssignmentRow;
                         Script.ok (VArr [rowA; rowB]) ];
     Script.times := [] |}.

Definition tiedBA : Script.world :=
  {| Script.answers := [ Script.ok newAssignmentRow;
                         Script.ok (VArr [rowB; rowA]) ];
     Script.times := [] |}.

Definition row1 : value := submissionRow "s1" "one" "2025-03-01T00:00:00.000Z" 1.
Definition row2 : value := submissionRow "s2" "two" "2025-03-02T00:00:00.000Z" 1.
Definition row3 : value := submissionRow "s3" "three" "2025-03-03T00:00:00.000Z" 1.

(** Three batches created one after the other, newest first. *)
Definition threeBatches : Script.world :=
  {| Script.answers := [ Script.ok newAssignmentRow;
                         Script.ok (VArr [row3; row2; row1]) ];
     Script.times := [] |}.

(** Timestamps of one format compare as strings. *)
Definition newerOrEqual (a b : value) : Prop :=
  match a, b with
  | VStr x, VStr y => String.leb y x = true
  | _, _ => False
  end.

Definition classRow : value :=
  VObj [ ("id", VStr "c1"); ("title", VStr "Algorithms");
         ("description", VStr "Design and analysis of algorithms");
         ("department", VStr "Computer Science"); ("code", VStr "CS101");
         ("schedule", VStr "Mon 2-3 PM"); ("term", VStr "Spring 2025");
         ("status", VStr "active");
         ("created_at", VStr "2025-01-01T00:00:00.000Z");
         ("updated_at", VStr "2025-04-01T00:00:00.000Z") ].

Definition classProps : EditClassDialog.Props :=
  {| EditClassDialog.classData := classRow |}.

Definition classForm : EditClassDialog.FormData :=
  {| EditClassDialog.title := "Algorithms";
     EditClassDialog.description := "Design and analysis of algorithms";
     EditClassDialog.department := "Computer Science";
     EditClassDialog.code := "cs101";
     EditClassDialog.schedule := "Mon 2-3 PM";
     EditClassDialog.term := "Spring 2025";
     EditClassDialog.status := "active" |}.

(** The same payload with a title of length 2. *)
Definition shortTitleForm : EditClassDialog.FormData :=
  {| EditClassDialog.title := "Al";
     EditClassDialog.description := "Design and analysis of algorithms";
     EditClassDialog.department := "Computer Science";
     EditClassDialog.code := "cs101";
     EditClassDialog.schedule := "Mon 2-3 PM";
     EditClassDialog.term := "Spring 2025";
     EditClassDialog.status := "active" |}.

Definition classDialog : EditClassDialog.State :=
  {| EditClassDialog.loading := false; EditClassDialog.errors := [] |}.

(** The boundary accepts the class update and returns the row. *)
Definition classUpdateAccepted : Script.world :=
  {| Script.answers := [ Script.ok classRow ];
     Script.times := [ "2025-04-01T00:00:00.000Z" ] |}.

Definition somewhere : Paths.states :=
  {| Paths.page := committed;
     Paths.classDialog := classDialog;
     Paths.assignmentDialog := {| EditAssignmentDialog.loading := false |} |}.

Definition generalEdit : Paths.other :=
  Paths.GeneralEdit
    {| EditAssignmentDialog.assignment := oldAssignment |}
    {| EditAssignmentDialog.title := "Essay, second draft";
       EditAssignmentDialog.description := "Five pages";
       EditAssignmentDialog.type := "text";
       EditAssignmentDialog.points := 20 |}.

Definition criteriaProps : EditGradingCriteriaDialog.Props :=
  {| EditGradingCriteriaDialog.assignment := oldAssignment |}.

Definition criteriaDialog : EditGradingCriteriaDialog.State :=
  {| EditGradingCriteriaDialog.loading := false;
     EditGradingCriteriaDialog.gradingCriteria := "Content 40, form 60" |}.

Definition updatedAssignmentRow : value :=
  VObj [ ("id", VStr "a1"); ("title", VStr "Essay");
         ("grading_criteria", VStr "Content 40, form 60");
         ("created_at", VStr "2025-01-01T00:00:00.000Z");
         ("updated_at", VStr "2025-04-01T00:00:00.000Z") ].

(** The boundary accepts the criteria update and returns the row. *)
Definition criteriaUpdateAccepted : Script.world :=
  {| Script.answers := [ Script.ok updatedAssignmentRow ];
     Script.times := [ "2025-04-01T00:00:00.000Z" ] |}.

(** A canonical record with a nested mapping and a sequence. *)
Definition canonicalSample : value :=
  VObj [ ("id", VStr "a1"); ("gradingCriteria", VStr "snake_case stays");
         ("createdAt", VStr "2025-01-01T00:00:00.000Z");
         ("latestBatches",
           VArr [ VObj [ ("batchName", VStr "Week 1"); ("fileCount", VNum 4) ] ]);
         ("classInfo", VObj [ ("classCode", VStr "CS101") ]) ].

End Samples.

(* ================================================================== *)
(** ** What the page and the details card render *)

Module Render.

Import AssignmentPage.

(** The three returns of the page component, lines 205 to 349. *)
Inductive View : Type :=
| Skeleton
| NotFound
| Main.

(** [if (loading) ...; if (!assignment) ...; return ...] *)
Definition view (s : State) : View :=
  if loading s then Skeleton
  else if negb (Js.truthy (assignment s)) then NotFound
  else Main.

(** [v === 'literal'] *)
Definition isString (v : value) (literal : string) : bool :=
  match v with
  | VStr x => String.eqb x literal
  | _ => false
  end.

(** The [acceptedFileTypes] prop of the upload form, lines 330 to 332. *)
Definition acceptedFileTypes (assignment : value) : list string :=
  if isString (Js.prop assignment "type") "voice"
  then ["audio/*"] else ["application/pdf"].

(** The file requirement of the details card, [assignment-details.tsx]
    line 257. *)
Definition fileRequirement (assignment : value) : string :=
  if isString (Js.prop assignment "type") "voice" then "Audio" else "PDF".

End Render.

(* ================================================================== *)
(** ** [assignment-details.tsx]: the dates of the details card *)

Module AssignmentDetails.

Fixpoint drop (n : nat) (s : string) : string :=
  match n, s with
  | O, _ => s
  | S n', String _ r => drop n' r
  | S _, EmptyString => EmptyString
  end.

(** [s.replace(pattern, replacement)] for a pattern that is a string and a
    replacement without [$]: the first occurrence is replaced. *)
Fixpoint replaceFirst (pattern replacement s : string) : string :=
  if String.prefix pattern s
  then replacement ++ drop (String.length pattern) s
  else match s with
       | EmptyString => EmptyString
       | String c r => String c (replaceFirst pattern replacement r)
       end.

Section Dates.

(** [new Date(s).getTime()], [None] when it is [NaN]. *)
Variable parse : string -> option Z.

(** [new Intl.DateTimeFormat('en-US', {...}).format(date)] for a valid
    date. *)
Variable format : Z -> string.

(** [formatDate], lines 29 to 52.  A truthy value that is not a string has
    no [replace]: the [TypeError] is caught. *)
Definition formatDate (dateString : value) : string :=
  if negb (Js.truthy dateString) then "Not available"
  else match dateString with
       | VStr s =>
           match parse (replaceFirst "+00:00" "Z" s) with
           | None => "Invalid date"
           | Some date => format date
           end
       | _ => "Invalid date"
       end.

End Dates.

End AssignmentDetails.

(* ================================================================== *)
(** ** The class schema in closed form, and more sample data *)

Module ClassPayload.

Import EditClassDialog.

(** The payload with every text field trimmed. *)
Definition normalized (values : FormData) : FormData :=
  {| title := Str.trim (title values);
     description := Str.trim (description values);
     department := department values;
     code := Str.trim (code values);
     schedule := Str.trim (schedule values);
     term := Str.trim (term values);
     status := status values |}.

(** The bounds, the pattern and the enumerations of lines 46 to 69, on the
    values as they were typed. *)
Definition acceptable (values : FormData) : bool :=
  (3 <=? Str.len (title values)) && (Str.len (title values) <=? 100)
  && (10 <=? Str.len (description values))
  && (Str.len (description values) <=? 500)
  && Obj.mem (department values) departmentOptions
  && (2 <=? Str.len (code values)) && (Str.len (code values) <=? 10)
  && alphanumeric (code values)
  && (1 <=? Str.len (schedule values))
  && (1 <=? Str.len (term values))
  && Obj.mem (status values) ["active"; "inactive"].

(** The fields of the form. *)
Definition fields : list string :=
  [ "title"; "description"; "department"; "code"; "schedule"; "term";
    "status" ].

(** The columns the patch of [handleSubmit] names. *)
Definition patched : list string :=
  [ "title"; "description"; "department"; "code"; "schedule"; "term";
    "status"; "updated_at" ].

End ClassPayload.

Module MoreSamples.

Import AssignmentPage.

(** The assignment is gone: no row, no error. *)
Definition assignmentGone : Script.world :=
  {| Script.answers := [ Script.ok VNull ]; Script.times := [] |}.

(** The assignment fetch itself fails. *)
Definition assignmentFetchFails : Script.world :=
  {| Script.answers := [ Script.failed "permission denied" ];
     Script.times := [] |}.

(** A row that has lost its [updated_at]. *)
Definition undatedRow : value :=
  VObj [ ("id", VStr "a1"); ("title", VStr "Essay");
         ("created_at", VStr "2025-01-01T00:00:00.000Z") ].

Definition undatedAnswer : Script.world :=
  {| Script.answers := [ Script.ok undatedRow; Script.ok (VArr []) ];
     Script.times := [ "2025-05-05T10:00:00.000Z";
                       "2025-05-05T10:00:00.001Z" ] |}.

(** The batches come back as [null]. *)
Definition noBatches : Script.world :=
  {| Script.answers := [ Script.ok Samples.newAssignmentRow; Script.ok VNull ];
     Script.times := [] |}.

(** A batch that reached the list after the render the handler saw. *)
Definition lateBatch : SubmissionBatch :=
  {| id := VStr "s9"; name := VStr "Late";
     uploadedAt := VStr "2025-03-01T12:00:00.000Z";
     status := VStr "grading"; fileCount := VNum 2 |}.

Definition afterLateBatch : State :=
  setSubmissions (lateBatch :: submissions Samples.committed) Samples.committed.

(** The stored assignment, before the criteria are edited. *)
Definition storedAssignment : list (string * value) :=
  [ ("id", VStr "a1"); ("title", VStr "Essay"); ("points", VNum 10);
    ("grading_criteria", VStr "To be written");
    ("created_at", VStr "2025-01-01T00:00:00.000Z");
    ("updated_at", VStr "2025-01-01T00:00:00.000Z") ].

(** A boundary that stores the patch and returns the row. *)
Definition criteriaStored : Script.world :=
  {| Script.answers :=
       [ Script.ok
           (Store.applyPatch (VObj storedAssignment)
              (EditGradingCriteriaDialog.transformedData
                 "Content 40, form 60" "2025-04-01T00:00:00.000Z")) ];
     Script.times := [ "2025-04-01T00:00:00.000Z" ] |}.

(** A form whose title has three characters, two of them blank. *)
Definition blankTitleForm : EditClassDialog.FormData :=
  {| EditClassDialog.title := " A ";
     EditClassDialog.description := "Design and analysis of algorithms";
     EditClassDialog.department := "Computer Science";
     EditClassDialog.code := "cs101";
     EditClassDialog.schedule := "Mon 2-3 PM";
     EditClassDialog.term := "Spring 2025";
     EditClassDialog.status := "active" |}.

(** A form with several violations. *)
Definition badForm : EditClassDialog.FormData :=
  {| EditClassDialog.title := "Al";
     EditClassDialog.description := "Short";
     EditClassDialog.department := "History";
     EditClassDialog.code := "cs 101";
     EditClassDialog.schedule := "";
     EditClassDialog.term := "Spring 2025";
     EditClassDialog.status := "archived" |}.

End MoreSamples.

Module PipelineSamples.

(** The no-break space, U+00A0. *)
Definition nbsp : ascii := ascii_of_nat 160.

(** A form whose title is "A" between no-break spaces. *)
Definition nbspTitleForm : EditClassDialog.FormData :=
  {| EditClassDialog.title := String nbsp (String nbsp (String "A" (String nbsp "")));
     EditClassDialog.description := "Design and analysis of algorithms";
     EditClassDialog.department := "Computer Science";
     EditClassDialog.code := "cs101";
     EditClassDialog.schedule := "Mon 2-3 PM";
     EditClassDialog.term := "Spring 2025";
     EditClassDialog.status := "active" |}.

(** A form whose text fields carry blanks around them. *)
Definition paddedForm : EditClassDialog.FormData :=
  {| EditClassDialog.title := "  Algorithms ";
     EditClassDialog.description := " Design and analysis of algorithms  ";
     EditClassDialog.department := "Computer Science";
     EditClassDialog.code := "cs101";
     EditClassDialog.schedule := " Mon 2-3 PM";
     EditClassDialog.term := "Spring 2025 ";
     EditClassDialog.status := "active" |}.

(** A dialog whose text carries blanks around it. *)
Definition paddedCriteria : EditGradingCriteriaDialog.State :=
  {| EditGradingCriteriaDialog.loading := false;
     EditGradingCriteriaDialog.gradingCriteria := "  Content 40, form 60 " |}.

(** A dialog whose text is empty. *)
Definition emptyCriteria : EditGradingCriteriaDialog.State :=
  {| EditGradingCriteriaDialog.loading := false;
     EditGradingCriteriaDialog.gradingCriteria := "" |}.

End PipelineSamples.

(* ================================================================== *)
(** * Properties *)

(** ** Characters *)

Module CharFacts.

Import Char.

(** Decides a statement about one character by running it on all of
    them. *)
Ltac by_cases_on c :=
  destruct c as [[] [] [] [] [] [] [] []]; vm_compute; intuition congruence.

Lemma lower_of_upper (c : ascii) :
  is_upper c = true ->
  is_lower (to_lower c) = true /\ to_upper (to_lower c) = c.
Proof. by_cases_on c. Qed.

Lemma upper_of_lower (c : ascii) :
  is_lower c = true ->
  is_upper (to_upper c) = true /\ to_lower (to_upper c) = c.
Proof. by_cases_on c. Qed.

Lemma to_upper_not_lower (c : ascii) : is_lower (to_upper c) = false.
Proof. by_cases_on c. Qed.

Lemma to_upper_idem (c : ascii) : to_upper (to_upper c) = to_upper c.
Proof. by_cases_on c. Qed.

Lemma to_upper_to_lower (c : ascii) : to_upper (to_lower c) = to_upper c.
Proof. by_cases_on c. Qed.

Lemma upper_not_underscore (c : ascii) :
  is_upper c = true -> is_underscore c = false.
Proof. by_cases_on c. Qed.

Lemma lower_not_underscore (c : ascii) :
  is_lower c = true -> is_underscore c = false.
Proof. by_cases_on c. Qed.

Lemma lower_not_upper (c : ascii) : is_lower c = true -> is_upper c = false.
Proof. by_cases_on c. Qed.

Lemma underscore_not_lower (c : ascii) :
  is_underscore c = true -> is_lower c = false.
Proof. by_cases_on c. Qed.

Lemma to_upper_of_lower_not_underscore (c : ascii) :
  is_lower c = true -> is_underscore (to_upper c) = false.
Proof. by_cases_on c. Qed.

Lemma to_lower_of_upper_not_upper (c : ascii) :
  is_upper c = true -> is_upper (to_lower c) = false.
Proof. by_cases_on c. Qed.

End CharFacts.

(** ** The key rules *)

Module KeyFacts.

Import Char CharFacts CaseConversion.

Example toCamelCase_grading_criteria :
  toCamelCase "grading_criteria" = "gradingCriteria".
Proof. reflexivity. Qed.

Example toSnakeCase_gradingCriteria :
  toSnakeCase "gradingCriteria" = "grading_criteria".
Proof. reflexivity. Qed.

Example toCamelCase_leaves_other_underscores :
  toCamelCase "a__b_1_" = "a_B_1_".
Proof. reflexivity. Qed.

(** A key without underscore is left alone by [toCamelCase]. *)
Lemma toCamelCase_camel_key (k : string) :
  camel_key k = true -> toCamelCase k = k.
Proof.
  induction k as [|c k IH]; simpl; intros H; [reflexivity|].
  apply andb_prop in H as [Hc Hk].
  apply negb_true_iff in Hc. rewrite Hc.
  now rewrite (IH Hk).
Qed.

(** A key without upper-case letter is left alone by [toSnakeCase]. *)
Lemma toSnakeCase_snake_key (k : string) :
  snake_key k = true -> toSnakeCase k = k.
Proof.
  induction k as [|c k IH]; simpl; intros H; [reflexivity|].
  apply andb_prop in H as [Hc Hk].
  apply negb_true_iff in Hc. rewrite Hc.
  now rewrite (IH Hk).
Qed.

(** Canonical to persisted and back, on a camel-cased key. *)
Lemma toCamelCase_toSnakeCase (k : string) :
  camel_key k = true -> toCamelCase (toSnakeCase k) = k.
Proof.
  induction k as [|c k IH]; simpl; intros H; [reflexivity|].
  apply andb_prop in H as [Hc Hk].
  apply negb_true_iff in Hc.
  destruct (is_upper c) eqn:Hup.
  - destruct (lower_of_upper c Hup) as [Hlow Hback].
    cbn [toCamelCase]. change (is_underscore "_") with true. cbv iota.
    rewrite Hlow, Hback. now rewrite (IH Hk).
  - cbn [toCamelCase]. rewrite Hc. now rewrite (IH Hk).
Qed.

(** Persisted to canonical and back, on a snake-cased key.  The rule
    consumes two characters at a time, hence the induction on a bound of
    the length. *)
Lemma toSnakeCase_toCamelCase_bounded (n : nat) :
  forall k, String.length k <= n -> snake_key k = true ->
            toSnakeCase (toCamelCase k) = k.
Proof.
  induction n as [|n IH]; intros k Hlen Hk.
  - destruct k; [reflexivity | simpl in Hlen; lia].
  - destruct k as [|c k]; [reflexivity|].
    simpl in Hlen. simpl in Hk. apply andb_prop in Hk as [Hc Hk].
    apply negb_true_iff in Hc.
    assert (Hrest : toSnakeCase (toCamelCase k) = k) by (apply IH; [lia | exact Hk]).
    cbn [toCamelCase].
    destruct (is_underscore c) eqn:Hus.
    + destruct k as [|d k'].
      * simpl. now rewrite Hc.
      * destruct (is_lower d) eqn:Hd.
        -- destruct (upper_of_lower d Hd) as [Hup Hback].
           cbn [toSnakeCase]. rewrite Hup, Hback.
           simpl in Hlen. simpl in Hk. apply andb_prop in Hk as [_ Hk'].
           rewrite (IH k'); [|lia|exact Hk'].
           apply Ascii.eqb_eq in Hus. now subst c.
        -- cbn [toSnakeCase]. rewrite Hc. now rewrite Hrest.
    + cbn [toSnakeCase]. rewrite Hc. now rewrite Hrest.
Qed.

Lemma toSnakeCase_toCamelCase (k : string) :
  snake_key k = true -> toSnakeCase (toCamelCase k) = k.
Proof. apply (toSnakeCase_toCamelCase_bounded (String.length k)); lia. Qed.

(** What [toCamelCase] puts first is not a lower-case letter unless its
    argument started with one. *)
Lemma toCamelCase_head (d : ascii) (r : string) :
  is_lower d = false ->
  exists e r', toCamelCase (String d r) = String e r' /\ is_lower e = false.
Proof.
  intros Hd. cbn [toCamelCase].
  destruct (is_underscore d) eqn:Hus.
  - destruct r as [|e r'].
    + eauto.
    + destruct (is_lower e) eqn:He.
      * eexists _, _; split; [reflexivity | apply to_upper_not_lower].
      * eauto.
  - eauto.
Qed.

Lemma toCamelCase_idem_bounded (n : nat) :
  forall k, String.length k <= n ->
            toCamelCase (toCamelCase k) = toCamelCase k.
Proof.
  induction n as [|n IH]; intros k Hlen.
  - destruct k; [reflexivity | simpl in Hlen; lia].
  - destruct k as [|c k]; [reflexivity|].
    simpl in Hlen.
    assert (Hrest : toCamelCase (toCamelCase k) = toCamelCase k)
      by (apply IH; lia).
    cbn [toCamelCase].
    destruct (is_underscore c) eqn:Hus.
    + destruct k as [|d k'].
      * cbn [toCamelCase]. now rewrite Hus.
      * destruct (is_lower d) eqn:Hd.
        -- cbn [toCamelCase].
           rewrite (to_upper_of_lower_not_underscore d Hd).
           simpl in Hlen. rewrite (IH k'); [reflexivity | lia].
        -- destruct (toCamelCase_head d k' Hd) as (e & r' & Heq & He).
           rewrite Heq in *. cbn [toCamelCase]. rewrite Hus, He.
           cbn [toCamelCase] in Hrest. now rewrite Hrest.
    + cbn [toCamelCase]. rewrite Hus. now rewrite Hrest.
Qed.

(** [toCamelCase] leaves nothing for a second application to rewrite. *)
Lemma toCamelCase_idem (k : string) :
  toCamelCase (toCamelCase k) = toCamelCase k.
Proof. apply (toCamelCase_idem_bounded (String.length k)); lia. Qed.

(** The keys of the schema are snake-cased. *)
Lemma schema_key_snake (k : string) :
  schema_key k = true -> snake_key k = true.
Proof.
  unfold schema_key, schema_keys. cbn [Obj.mem]. intros H.
  repeat (apply orb_prop in H as [H|H];
          [apply String.eqb_eq in H; subst k; reflexivity|]).
  discriminate.
Qed.

End KeyFacts.

(** ** Objects *)

Module ObjFacts.

Import Obj.

Lemma mem_In (k : string) (ks : list string) :
  mem k ks = true <-> In k ks.
Proof.
  induction ks as [|k' ks IH]; simpl.
  - split; [discriminate | tauto].
  - rewrite orb_true_iff, String.eqb_eq, IH. tauto.
Qed.

Lemma mem_false_In (k : string) (ks : list string) :
  mem k ks = false <-> ~ In k ks.
Proof.
  rewrite <- mem_In. destruct (mem k ks); split; congruence.
Qed.

Lemma nodup_keys_NoDup (ks : list string) :
  nodup_keys ks = true <-> NoDup ks.
Proof.
  induction ks as [|k ks IH]; simpl.
  - split; [constructor | reflexivity].
  - rewrite andb_true_iff, negb_true_iff, mem_false_In, IH.
    split.
    + intros [H1 H2]. now constructor.
    + intros H. inversion H; subst. tauto.
Qed.

Section Assoc.
Context {A : Type}.
Implicit Types (o acc es : entries A) (k : string) (v : A).

(** Assigning a property the object does not have appends it. *)
Lemma set_fresh k v o :
  ~ In k (keys o) -> set k v o = o ++ [(k, v)].
Proof.
  induction o as [|[k' v'] o IH]; simpl; intros H; [reflexivity|].
  destruct (String.eqb k' k) eqn:E.
  - apply String.eqb_eq in E. tauto.
  - rewrite IH; tauto.
Qed.

Lemma keys_set k v o :
  keys (set k v o) = if mem k (keys o) then keys o else keys o ++ [k].
Proof.
  induction o as [|[k' v'] o IH]; simpl; [reflexivity|].
  destruct (String.eqb k' k) eqn:E; simpl; [reflexivity|].
  rewrite IH. now destruct (mem k (keys o)).
Qed.

Lemma NoDup_keys_set k v o : NoDup (keys o) -> NoDup (keys (set k v o)).
Proof.
  intros H. rewrite keys_set. destruct (mem k (keys o)) eqn:E; [exact H|].
  apply mem_false_In in E.
  apply NoDup_rev in H. rewrite <- (rev_involutive (keys o ++ [k])).
  apply NoDup_rev. rewrite rev_app_distr. simpl.
  constructor; [|exact H]. now rewrite <- in_rev.
Qed.

Lemma In_set kv k v o : In kv (set k v o) -> kv = (k, v) \/ In kv o.
Proof.
  induction o as [|[k' v'] o IH]; simpl.
  - intros [H|[]]; auto.
  - destruct (String.eqb k' k) eqn:E; simpl.
    + apply String.eqb_eq in E. subst k'. intros [H|H]; auto.
    + intros [H|H]; auto. destruct (IH H); auto.
Qed.

Lemma fold_assign_NoDup es acc :
  NoDup (keys acc) -> NoDup (keys (fold_left assign es acc)).
Proof.
  revert acc. induction es as [|[k v] es IH]; simpl; intros acc H; [exact H|].
  apply IH. now apply NoDup_keys_set.
Qed.

Lemma fold_assign_In es acc kv :
  In kv (fold_left assign es acc) -> In kv acc \/ In kv es.
Proof.
  revert acc. induction es as [|[k v] es IH]; simpl; intros acc H; [auto|].
  destruct (IH _ H) as [H'|H']; [|auto].
  destruct (In_set _ _ _ _ H'); auto.
Qed.

Lemma fold_assign_fresh es acc :
  NoDup (keys es) ->
  (forall k, In k (keys es) -> ~ In k (keys acc)) ->
  fold_left assign es acc = acc ++ es.
Proof.
  revert acc. induction es as [|[k v] es IH]; simpl; intros acc Hnd Hdisj.
  - now rewrite app_nil_r.
  - inversion Hnd as [|? ? Hk Hnd']; subst.
    unfold assign at 2. simpl.
    rewrite set_fresh by (apply Hdisj; auto).
    rewrite IH; [now rewrite <- app_assoc | exact Hnd' |].
    intros k' Hk'. unfold keys. rewrite map_app, in_app_iff. simpl.
    intros [H|[H|[]]].
    + exact (Hdisj k' (or_intror Hk') H).
    + subst k'. exact (Hk Hk').
Qed.

(** The keys of a built object are pairwise different. *)
Lemma fromEntries_NoDup es : NoDup (keys (fromEntries es)).
Proof. apply fold_assign_NoDup. constructor. Qed.

(** A built object has no property that was not among the entries. *)
Lemma fromEntries_In es kv : In kv (fromEntries es) -> In kv es.
Proof. intros H. destruct (fold_assign_In _ _ _ H) as [[]|]; assumption. Qed.

(** Entries with pairwise different keys are the object they build. *)
Lemma fromEntries_nodup es : NoDup (keys es) -> fromEntries es = es.
Proof.
  intros H. unfold fromEntries. rewrite fold_assign_fresh; auto.
Qed.

Lemma get_set_same k v o : get k (set k v o) = Some v.
Proof.
  induction o as [|[k' v'] o IH]; simpl.
  - now rewrite String.eqb_refl.
  - destruct (String.eqb k' k) eqn:E; simpl; now rewrite E.
Qed.

Lemma get_set_other k k' v o : k' <> k -> get k' (set k v o) = get k' o.
Proof.
  intros Hne. induction o as [|[k0 v0] o IH]; simpl.
  - destruct (String.eqb k k') eqn:E; [|reflexivity].
    apply String.eqb_eq in E. congruence.
  - destruct (String.eqb k0 k) eqn:E; simpl.
    + apply String.eqb_eq in E. subst k0.
      destruct (String.eqb k k') eqn:E'; [|reflexivity].
      apply String.eqb_eq in E'. congruence.
    + now rewrite IH.
Qed.

Lemma get_None_keys k o : ~ In k (keys o) -> get k o = None.
Proof.
  induction o as [|[k' v'] o IH]; simpl; intros H; [reflexivity|].
  destruct (String.eqb k' k) eqn:E.
  - apply String.eqb_eq in E. tauto.
  - apply IH. tauto.
Qed.

(** After a patch, a property has the value of the patch if the patch
    names it and its old value otherwise. *)
Lemma get_fold_assign k es o :
  NoDup (keys es) ->
  get k (fold_left assign es o)
  = match get k es with Some v => Some v | None => get k o end.
Proof.
  revert o. induction es as [|[k0 v0] es IH]; intros o Hnd; [reflexivity|].
  inversion Hnd as [|? ? Hk0 Hnd']; subst.
  cbn [fold_left]. rewrite (IH _ Hnd'). unfold assign. cbn [fst snd get].
  destruct (String.eqb k0 k) eqn:E.
  - apply String.eqb_eq in E. subst k0.
    rewrite (get_None_keys k es Hk0). apply get_set_same.
  - apply String.eqb_neq in E.
    destruct (get k es); [reflexivity|].
    apply get_set_other. congruence.
Qed.

End Assoc.

End ObjFacts.

(** ** The naming transform *)

Module TransformFacts.

Import Obj ObjFacts CaseConversion KeyFacts.

Section Traversal.

Variables (f : string -> string) (p : string -> bool).

Lemma transformKeys_obj (g : string -> string) (fs : list (string * value)) :
  transformKeys g (VObj fs) = VObj (fromEntries (List.map (convert g) fs)).
Proof. reflexivity. Qed.

Lemma keys_convert (g : string -> string) (fs : list (string * value)) :
  keys (List.map (convert g) fs) = List.map g (keys fs).
Proof. unfold keys. rewrite !map_map. reflexivity. Qed.

Lemma well_keyed_obj (fs : list (string * value)) :
  well_keyed p (VObj fs) = true ->
  NoDup (keys fs)
  /\ Forall (fun kv => p (fst kv) = true /\ well_keyed p (snd kv) = true) fs.
Proof.
  cbn [well_keyed]. intros H. apply andb_prop in H as [Hnd Hall].
  split; [now apply nodup_keys_NoDup|].
  apply Forall_forall. intros kv Hin.
  rewrite forallb_forall in Hall. specialize (Hall kv Hin).
  now apply andb_prop in Hall.
Qed.

(** A key rule that can be undone on the keys of an object keeps them
    pairwise different. *)
Lemma NoDup_map_keys (g : string -> string) (ks : list string) :
  (forall k, p k = true -> g (f k) = k) ->
  Forall (fun k => p k = true) ks -> NoDup ks -> NoDup (List.map f ks).
Proof.
  intros Hinv Hall Hnd. induction Hnd as [|k ks Hk Hnd IH]; simpl.
  - constructor.
  - inversion Hall as [|? ? Hpk Hall']; subst.
    constructor; [|auto].
    rewrite in_map_iff. intros (k' & Heq & Hin).
    rewrite Forall_forall in Hall'.
    assert (k' = k) by (rewrite <- (Hinv k'), Heq, Hinv; auto).
    now subst k'.
Qed.

(** An object whose keys the rule leaves alone is left alone. *)
Lemma transformKeys_fixed (v : value) :
  (forall k, p k = true -> f k = k) ->
  well_keyed p v = true -> transformKeys f v = v.
Proof.
  intros Hfix. induction v as [| | | | |xs IH|fs IH] using Js.value_ind;
    intros Hwk; try reflexivity.
  - cbn [transformKeys]. f_equal.
    cbn [well_keyed] in Hwk. rewrite forallb_forall in Hwk.
    rewrite <- (map_id xs) at 2. apply map_ext_in.
    intros x Hx. rewrite Forall_forall in IH. auto.
  - destruct (well_keyed_obj fs Hwk) as [Hnd Hall].
    rewrite transformKeys_obj. f_equal.
    assert (Hmap : List.map (convert f) fs = fs).
    { rewrite <- (map_id fs) at 2. apply map_ext_in.
      intros [k x] Hin. rewrite Forall_forall in IH, Hall.
      destruct (Hall _ Hin) as [Hk Hx]. unfold convert. simpl in *.
      rewrite (Hfix k Hk). f_equal. exact (IH _ Hin Hx). }
    rewrite Hmap. now apply fromEntries_nodup.
Qed.

(** A rule that is undone by [g] on the keys of an object is undone by
    the traversal with [g]. *)
Lemma transformKeys_inverse (g : string -> string) (v : value) :
  (forall k, p k = true -> g (f k) = k) ->
  well_keyed p v = true -> transformKeys g (transformKeys f v) = v.
Proof.
  intros Hinv. induction v as [| | | | |xs IH|fs IH] using Js.value_ind;
    intros Hwk; try reflexivity.
  - cbn [transformKeys]. f_equal. rewrite map_map.
    cbn [well_keyed] in Hwk. rewrite forallb_forall in Hwk.
    rewrite <- (map_id xs) at 2. apply map_ext_in.
    intros x Hx. rewrite Forall_forall in IH. auto.
  - destruct (well_keyed_obj fs Hwk) as [Hnd Hall].
    rewrite transformKeys_obj.
    rewrite (fromEntries_nodup (List.map (convert f) fs)).
    2:{ rewrite keys_convert. apply (NoDup_map_keys g); auto.
        apply Forall_forall. intros k Hk. unfold keys in Hk.
        apply in_map_iff in Hk as ([k' x] & <- & Hin).
        rewrite Forall_forall in Hall. now destruct (Hall _ Hin). }
    rewrite transformKeys_obj. f_equal. rewrite map_map.
    assert (Hmap : List.map (fun kv => convert g (convert f kv)) fs = fs).
    { rewrite <- (map_id fs) at 2. apply map_ext_in.
      intros [k x] Hin. rewrite Forall_forall in IH, Hall.
      destruct (Hall _ Hin) as [Hk Hx]. unfold convert. simpl in *.
      rewrite (Hinv k Hk). f_equal. exact (IH _ Hin Hx). }
    rewrite Hmap. now apply fromEntries_nodup.
Qed.

(** Reading a converted key of the converted object gives the converted
    value of the key. *)
Lemma get_convert (g : string -> string) (fs : list (string * value))
    (k : string) :
  (forall k, p k = true -> g (f k) = k) ->
  Forall (fun kv => p (fst kv) = true) fs -> p k = true ->
  get (f k) (List.map (convert f) fs)
  = option_map (transformKeys f) (get k fs).
Proof.
  intros Hinv Hall Hk. induction fs as [|[k' x] fs IH]; simpl; [reflexivity|].
  inversion Hall as [|? ? Hk' Hall']; subst. simpl in Hk'.
  destruct (String.eqb k' k) eqn:E.
  - apply String.eqb_eq in E. subst k'. now rewrite String.eqb_refl.
  - destruct (String.eqb (f k') (f k)) eqn:E'; [|auto].
    apply String.eqb_eq in E'. apply String.eqb_neq in E.
    exfalso. apply E. rewrite <- (Hinv k'), E', Hinv; auto.
Qed.

End Traversal.

(** A rule that changes nothing the second time gives a traversal that
    changes nothing the second time. *)
Lemma transformKeys_idem (f : string -> string) (v : value) :
  (forall k, f (f k) = f k) ->
  transformKeys f (transformKeys f v) = transformKeys f v.
Proof.
  intros Hidem. induction v as [| | | | |xs IH|fs IH] using Js.value_ind;
    try reflexivity.
  - cbn [transformKeys]. f_equal. rewrite map_map.
    apply map_ext_in. intros x Hx. rewrite Forall_forall in IH. auto.
  - rewrite !transformKeys_obj. f_equal.
    set (built := fromEntries (List.map (convert f) fs)).
    assert (Hmap : List.map (convert f) built = built).
    { rewrite <- (map_id built) at 2. apply map_ext_in.
      intros kv Hin. apply fromEntries_In in Hin.
      apply in_map_iff in Hin as ([k x] & <- & Hin).
      unfold convert. simpl. rewrite Hidem. f_equal.
      rewrite Forall_forall in IH. exact (IH _ Hin). }
    rewrite Hmap. apply fromEntries_nodup. apply fromEntries_NoDup.
Qed.

(** A record of the schema is a persisted record. *)
Lemma schema_record_persisted (v : value) :
  schema_record v = true -> persisted v = true.
Proof.
  unfold schema_record, persisted.
  induction v as [| | | | |xs IH|fs IH] using Js.value_ind;
    try reflexivity; cbn [well_keyed].
  - rewrite !forallb_forall. rewrite Forall_forall in IH. auto.
  - intros H. apply andb_prop in H as [Hnd Hall].
    rewrite Hnd. simpl. rewrite forallb_forall in *.
    rewrite Forall_forall in IH.
    intros kv Hin. specialize (Hall kv Hin).
    apply andb_prop in Hall as [Hk Hv].
    rewrite (schema_key_snake _ Hk). simpl. auto.
Qed.

End TransformFacts.

(** ** The round trip of the naming transform *)

Module NamingRoundTrip.

Import CaseConversion KeyFacts TransformFacts.

(** Canonical to persisted and back is the identity on every record with
    camel-cased keys. *)
Lemma canonical_round_trip (x : value) :
  canonical x = true ->
  transformToCamelCase (transformToSnakeCase x) = x.
Proof.
  apply (transformKeys_inverse toSnakeCase camel_key toCamelCase).
  exact toCamelCase_toSnakeCase.
Qed.

(** Persisted to canonical and back is the identity on every record with
    snake-cased keys. *)
Lemma persisted_round_trip (r : value) :
  persisted r = true ->
  transformToSnakeCase (transformToCamelCase r) = r.
Proof.
  apply (transformKeys_inverse toCamelCase snake_key toSnakeCase).
  exact toSnakeCase_toCamelCase.
Qed.

(** A record in canonical form is left alone by [transformToCamelCase]. *)
Lemma canonical_fixed (x : value) :
  canonical x = true -> transformToCamelCase x = x.
Proof.
  apply (transformKeys_fixed toCamelCase camel_key).
  exact toCamelCase_camel_key.
Qed.

(** A record in persisted form is left alone by [transformToSnakeCase]. *)
Lemma persisted_fixed (r : value) :
  persisted r = true -> transformToSnakeCase r = r.
Proof.
  apply (transformKeys_fixed toSnakeCase snake_key).
  exact toSnakeCase_snake_key.
Qed.

(** [transformToCamelCase] changes nothing the second time, whatever the
    record. *)
Lemma camel_twice (v : value) :
  transformToCamelCase (transformToCamelCase v) = transformToCamelCase v.
Proof. apply transformKeys_idem. exact toCamelCase_idem. Qed.

(** Reading the camel-cased name of a column in the converted row gives
    the converted value of the column. *)
Lemma prop_camel (row : value) (k : string) :
  Paths.isRow row = true -> snake_key k = true ->
  Js.prop (transformToCamelCase row) (toCamelCase k)
  = transformToCamelCase (Js.prop row k).
Proof.
  destruct row as [| | | | | |fs]; try discriminate.
  intros Hrow Hk. simpl in Hrow.
  destruct (well_keyed_obj snake_key fs Hrow) as [Hnd Hall].
  assert (Hkeys : Forall (fun kv => snake_key (fst kv) = true) fs).
  { eapply Forall_impl; [|exact Hall]. now intros kv [H _]. }
  unfold transformToCamelCase at 1. rewrite transformKeys_obj.
  rewrite ObjFacts.fromEntries_nodup.
  2:{ rewrite keys_convert.
      apply (NoDup_map_keys toCamelCase snake_key toSnakeCase);
        [exact toSnakeCase_toCamelCase | | exact Hnd].
      unfold Obj.keys. now rewrite Forall_map. }
  unfold Js.prop.
  rewrite (get_convert toCamelCase snake_key toSnakeCase);
    [|exact toSnakeCase_toCamelCase | exact Hkeys | exact Hk].
  now destruct (Obj.get k fs).
Qed.

(** C3.  The naming transform is a total, lossless round trip:
    [transformToCamelCase (transformToSnakeCase x)] is [x] for every valid
    canonical record [x] (a value whose objects have camel-cased keys), and
    [transformToSnakeCase (transformToCamelCase r)] is [r] for every
    persisted record [r] that only contains keys known to the schema. *)
Theorem naming_round_trip (x r : value) :
  canonical x = true ->
  schema_record r = true ->
  transformToCamelCase (transformToSnakeCase x) = x
  /\ transformToSnakeCase (transformToCamelCase r) = r.
Proof.
  intros Hx Hr. split.
  - now apply canonical_round_trip.
  - apply persisted_round_trip. now apply schema_record_persisted.
Qed.

Lemma naming_round_trip_witness :
  canonical Samples.canonicalSample = true
  /\ schema_record Samples.classRow = true
  /\ transformToCamelCase (transformToSnakeCase Samples.canonicalSample)
     = Samples.canonicalSample
  /\ transformToSnakeCase (transformToCamelCase Samples.classRow)
     = Samples.classRow.
Proof.
  split; [reflexivity|]. split; [reflexivity|].
  apply (naming_round_trip Samples.canonicalSample Samples.classRow);
    reflexivity.
Defined.

End NamingRoundTrip.

(** ** The assignment page *)

Module PageFacts.

Import CaseConversion AssignmentPage Paths.

Section AnyWorld.
Context {W : Type}.
Variable serve : request -> W -> response * W.
Variable clock : W -> string * W.

(** The rest of [fetchAssignmentData] once [setAssignment] has been
    called: a failed batch fetch only clears [loading]. *)
Lemma fetch_after_commit (p : Params) (a : value) (s : State) (w w1 w2 : W)
    (row d : value) (e : JsError) :
  serve (assignmentQuery p) w = ({| data := row; error := None |}, w1) ->
  Js.truthy row = true ->
  stamped clock (transformToCamelCase row) w1 = (a, w2) ->
  forall w3,
  serve (submissionsQuery p) w2 = ({| data := d; error := Some e |}, w3) ->
  final (run serve clock (fetchAssignmentData p) s w) = setLoading false (setAssignment a s)
  /\ world (run serve clock (fetchAssignmentData p) s w) = w3
  /\ requests (trace (run serve clock (fetchAssignmentData p) s w))
     = [assignmentQuery p; submissionsQuery p].
Proof.
  intros H1 Htruthy Hstamp w3 H2.
  unfold fetchAssignmentData. cbn [run]. rewrite H1. cbn [error data].
  rewrite Htruthy. cbn [negb].
  unfold stamped in Hstamp.
  destruct (missingDates (transformToCamelCase row)).
  - cbn [run].
    destruct (clock w1) as [created wa].
    destruct (clock wa) as [updated wb].
    injection Hstamp as <- <-.
    cbn [run]. rewrite H2. cbn [error].
    destruct (String.eqb (message e) "Assignment not found"); repeat split.
  - injection Hstamp as <- <-.
    cbn [run]. rewrite H2. cbn [error].
    destruct (String.eqb (message e) "Assignment not found"); repeat split.
Qed.

(** C1, as the code has it.  When the assignment fetch succeeds and the
    batch fetch that follows it fails, the batch list is the one that was
    committed before and [loading] is cleared, but the assignment record is
    the newly fetched one in canonical form (with both dates set to the
    current time when one of them is missing): [setAssignment] is called
    before the batches are asked for. *)
Theorem refresh_keeps_batches_commits_assignment
    (p : Params) (a : value) (s : State) (w w1 w2 w3 : W)
    (row d : value) (e : JsError) :
  serve (assignmentQuery p) w = ({| data := row; error := None |}, w1) ->
  Js.truthy row = true ->
  stamped clock (transformToCamelCase row) w1 = (a, w2) ->
  serve (submissionsQuery p) w2 = ({| data := d; error := Some e |}, w3) ->
  submissions (final (run serve clock (fetchAssignmentData p) s w)) = submissions s
  /\ assignment (final (run serve clock (fetchAssignmentData p) s w)) = a
  /\ loading (final (run serve clock (fetchAssignmentData p) s w)) = false.
Proof.
  intros H1 Htruthy Hstamp H2.
  destruct (fetch_after_commit p a s w w1 w2 row d e H1 Htruthy Hstamp w3 H2)
    as (Hfinal & _ & _).
  rewrite Hfinal. repeat split.
Qed.

End AnyWorld.

(** C1, as stated, fails: after a refresh whose assignment fetch succeeds
    and whose batch fetch fails, the page shows the new assignment with the
    old batches. *)
Lemma refresh_commits_half_update :
  let out := run Script.serve Script.clock
                 (fetchAssignmentData Samples.params)
                 Samples.committed Samples.batchFetchFails in
  assignment (final out) <> assignment Samples.committed
  /\ assignment (final out) = transformToCamelCase Samples.newAssignmentRow
  /\ submissions (final out) = submissions Samples.committed.
Proof.
  cbv zeta. split; [|split]; [|reflexivity|reflexivity].
  vm_compute. discriminate.
Qed.

Lemma refresh_keeps_batches_commits_assignment_witness :
  let out := run Script.serve Script.clock
                 (fetchAssignmentData Samples.params)
                 Samples.committed Samples.batchFetchFails in
  submissions (final out) = [Samples.oldBatch]
  /\ assignment (final out) = transformToCamelCase Samples.newAssignmentRow
  /\ loading (final out) = false.
Proof.
  cbv zeta.
  apply (refresh_keeps_batches_commits_assignment
           Script.serve Script.clock Samples.params
           (transformToCamelCase Samples.newAssignmentRow)
           Samples.committed Samples.batchFetchFails
           {| Script.answers := [Script.failed "connection reset"];
              Script.times := [] |}
           {| Script.answers := [Script.failed "connection reset"];
              Script.times := [] |}
           {| Script.answers := []; Script.times := [] |}
           Samples.newAssignmentRow VNull
           {| message := "connection reset" |});
    reflexivity.
Defined.

End PageFacts.

(** ** Uploads *)

Module UploadFacts.

Import CaseConversion AssignmentPage Paths NamingRoundTrip.

(** The batch built from a row in persisted form reads the columns of the
    row. *)
Lemma toBatch_row (row : value) :
  isRow row = true -> toBatch (transformToCamelCase row) = inr (rowBatch row).
Proof.
  intros Hrow. unfold toBatch.
  assert (Hnn : Js.nullish (transformToCamelCase row) = false)
    by (destruct row; try discriminate; reflexivity).
  rewrite Hnn. unfold rowBatch, column.
  change "batchName" with (toCamelCase "batch_name").
  change "createdAt" with (toCamelCase "created_at").
  change "fileCount" with (toCamelCase "file_count").
  change "id" with (toCamelCase "id").
  change "status" with (toCamelCase "status").
  now rewrite !prop_camel by (exact Hrow || reflexivity).
Qed.

(** The insert carries the four columns of the literal, under the names
    they already have. *)
Lemma submissionInsert_row (p : Params) (files : list File) (name : string) :
  submissionInsert p files name
  = InsertSingle "submissions" (insertedRow p (List.length files) name).
Proof. reflexivity. Qed.

Section AnyWorld.
Context {W : Type}.
Variable serve : request -> W -> response * W.
Variable clock : W -> string * W.

(** [handleSubmitFiles] issues its insert whatever the files are. *)
Lemma submit_requests (p : Params) (seen s : State) (files : list File)
    (name : string) (w : W) :
  requests (trace (run serve clock (handleSubmitFiles p seen files name) s w))
  = [submissionInsert p files name].
Proof.
  unfold handleSubmitFiles. cbn [run].
  destruct (serve (submissionInsert p files name) w) as [r w'].
  destruct (error r); [reflexivity|].
  destruct (toBatch (transformToCamelCase (data r))); reflexivity.
Qed.

(** A rejected insert leaves the page as it was. *)
Lemma submit_rejected (p : Params) (seen s : State) (files : list File)
    (name : string) (w w' : W) (d : value) (e : JsError) :
  serve (submissionInsert p files name) w
  = ({| data := d; error := Some e |}, w') ->
  final (run serve clock (handleSubmitFiles p seen files name) s w) = s
  /\ events (trace (run serve clock (handleSubmitFiles p seen files name) s w))
     = [ToastError (orElse (message e) "Failed to upload files")].
Proof.
  intros H. unfold handleSubmitFiles. cbn [run]. rewrite H. split; reflexivity.
Qed.

(** An accepted insert puts the batch of the returned row first. *)
Lemma submit_accepted (p : Params) (seen s : State) (files : list File)
    (name : string) (w w' : W) (row : value) :
  serve (submissionInsert p files name) w
  = ({| data := row; error := None |}, w') ->
  isRow row = true ->
  final (run serve clock (handleSubmitFiles p seen files name) s w)
  = setShowUploadForm false (setSubmissions (rowBatch row :: submissions seen) s)
  /\ events (trace (run serve clock (handleSubmitFiles p seen files name) s w))
     = [ToastSuccess "Files uploaded successfully"].
Proof.
  intros H Hrow. unfold handleSubmitFiles. cbn [run]. rewrite H.
  cbn [error data]. rewrite (toBatch_row row Hrow). split; reflexivity.
Qed.

(** C2, as the code has it.  [handleSubmitFiles] does not look at the
    number of files: called with an empty file list it issues one insert
    into [submissions] that carries [file_count] 0 and status "grading";
    when the boundary rejects the insert the page state, batch list
    included, is unchanged and the error is shown; when the boundary
    accepts it, the batch of the returned row is put first in the list. *)
Theorem empty_upload_reaches_boundary
    (p : Params) (seen s : State) (name : string) (w : W) :
  let out := run serve clock (handleSubmitFiles p seen [] name) s w in
  requests (trace out) = [InsertSingle "submissions" (insertedRow p 0 name)]
  /\ (forall d e w',
        serve (submissionInsert p [] name) w
        = ({| data := d; error := Some e |}, w') ->
        final out = s
        /\ events (trace out)
           = [ToastError (orElse (message e) "Failed to upload files")])
  /\ (forall row w',
        serve (submissionInsert p [] name) w
        = ({| data := row; error := None |}, w') ->
        isRow row = true ->
        submissions (final out) = rowBatch row :: submissions seen
        /\ events (trace out) = [ToastSuccess "Files uploaded successfully"]).
Proof.
  cbv zeta. split; [|split].
  - now rewrite submit_requests.
  - intros d e w' H. exact (submit_rejected p seen s [] name w w' d e H).
  - intros row w' H Hrow.
    destruct (submit_accepted p seen s [] name w w' row H Hrow) as [Hf He].
    rewrite Hf, He. split; reflexivity.
Qed.

(** C8.  For every batch creation with a non-empty list of files and an
    empty display name, the code inserts a row with status "grading", the
    number of the files as [file_count] and the empty [batch_name]; once
    the boundary has accepted the insert and returned the row with the
    identifier it assigned, carrying in those three columns what was sent,
    the resulting batch has status "grading", the number of uploaded files
    as its file count and the non-empty name "Batch " followed by that
    identifier; it is the first of the list. *)
Theorem createBatch_without_name
    (p : Params) (seen s : State) (files : list File) (w w' : W)
    (row : value) (i : string) :
  files <> [] ->
  serve (submissionInsert p files "") w
  = ({| data := row; error := None |}, w') ->
  isRow row = true ->
  Js.prop row "id" = VStr i ->
  Js.prop row "batch_name"
  = Js.prop (sent (submissionInsert p files "")) "batch_name" ->
  Js.prop row "file_count"
  = Js.prop (sent (submissionInsert p files "")) "file_count" ->
  Js.prop row "status"
  = Js.prop (sent (submissionInsert p files "")) "status" ->
  requests (trace (run serve clock (handleSubmitFiles p seen files "") s w))
  = [InsertSingle "submissions"
       (VObj [ ("assignment_id", VStr (assignmentId p));
               ("batch_name", VStr "");
               ("file_count", VNum (Z.of_nat (List.length files)));
               ("status", VStr "grading") ])]
  /\ exists b rest,
       submissions
         (final (run serve clock (handleSubmitFiles p seen files "") s w))
       = b :: rest
       /\ rest = submissions seen
       /\ status b = VStr "grading"
       /\ fileCount b = VNum (Z.of_nat (List.length files))
       /\ id b = VStr i
       /\ name b = VStr ("Batch " ++ i)
       /\ name b <> VStr "".
Proof.
  intros Hfiles H Hrow Hid Hname Hcount Hstatus.
  change (Js.prop (sent (submissionInsert p files "")) "batch_name")
    with (VStr "") in Hname.
  change (Js.prop (sent (submissionInsert p files "")) "file_count")
    with (VNum (Z.of_nat (List.length files))) in Hcount.
  change (Js.prop (sent (submissionInsert p files "")) "status")
    with (VStr "grading") in Hstatus.
  split; [now rewrite submit_requests|].
  destruct (submit_accepted p seen s files "" w w' row H Hrow) as [Hf _].
  exists (rowBatch row), (submissions seen). rewrite Hf.
  unfold rowBatch, column. rewrite Hid, Hname, Hcount, Hstatus.
  assert (Hpos : Js.truthy (VNum (Z.of_nat (List.length files))) = true).
  { destruct files; [congruence | reflexivity]. }
  unfold transformToCamelCase, Js.or. cbn [transformKeys].
  rewrite Hpos.
  cbn [Js.truthy Js.to_string String.eqb negb id name status fileCount].
  repeat split. discriminate.
Qed.

End AnyWorld.

(** C2, as stated, fails: an upload without files under the name "X" is
    inserted with [file_count] 0 and, once accepted, shown as a batch; no
    error is raised. *)
Lemma empty_upload_is_inserted :
  let out := run Script.serve Script.clock
                 (handleSubmitFiles Samples.params Samples.committed [] "X")
                 Samples.committed Samples.emptyUploadAccepted in
  requests (trace out)
  = [InsertSingle "submissions"
       (VObj [ ("assignment_id", VStr "a1"); ("batch_name", VStr "X");
               ("file_count", VNum 0); ("status", VStr "grading") ])]
  /\ events (trace out) = [ToastSuccess "Files uploaded successfully"]
  /\ List.map id (submissions (final out)) = [VStr "s2"; VStr "s1"]
  /\ submissions (final out) <> submissions Samples.committed.
Proof.
  cbv zeta. repeat split; try reflexivity.
  vm_compute. discriminate.
Qed.

Lemma empty_upload_reaches_boundary_witness :
  let out := run Script.serve Script.clock
                 (handleSubmitFiles Samples.params Samples.committed [] "X")
                 Samples.committed Samples.emptyUploadAccepted in
  requests (trace out)
  = [InsertSingle "submissions" (insertedRow Samples.params 0 "X")]
  /\ submissions (final out)
     = rowBatch (Samples.submissionRow "s2" "X" "2025-03-01T00:00:00.000Z" 0)
       :: submissions Samples.committed.
Proof.
  cbv zeta.
  destruct (empty_upload_reaches_boundary Script.serve Script.clock
              Samples.params Samples.committed Samples.committed "X"
              Samples.emptyUploadAccepted) as (Hreq & _ & Hok).
  split; [exact Hreq|].
  apply (Hok (Samples.submissionRow "s2" "X" "2025-03-01T00:00:00.000Z" 0)
             {| Script.answers := []; Script.times := [] |}); reflexivity.
Defined.

Lemma createBatch_without_name_witness :
  requests
    (trace (run Script.serve Script.clock
                (handleSubmitFiles Samples.params Samples.committed
                                   ["a.pdf"; "b.pdf"; "c.pdf"] "")
                Samples.committed Samples.threeFilesAccepted))
  = [InsertSingle "submissions"
       (VObj [ ("assignment_id", VStr "a1"); ("batch_name", VStr "");
               ("file_count", VNum 3); ("status", VStr "grading") ])]
  /\ exists b rest,
       submissions
         (final (run Script.serve Script.clock
                     (handleSubmitFiles Samples.params Samples.committed
                                        ["a.pdf"; "b.pdf"; "c.pdf"] "")
                     Samples.committed Samples.threeFilesAccepted))
       = b :: rest
       /\ rest = submissions Samples.committed
       /\ status b = VStr "grading"
       /\ fileCount b = VNum 3
       /\ id b = VStr "s3"
       /\ name b = VStr "Batch s3"
       /\ name b <> VStr "".
Proof.
  apply (createBatch_without_name Script.serve Script.clock
           Samples.params Samples.committed Samples.committed
           ["a.pdf"; "b.pdf"; "c.pdf"] Samples.threeFilesAccepted
           {| Script.answers := []; Script.times := [] |}
           (Samples.submissionRow "s3" "" "2025-03-02T00:00:00.000Z" 3) "s3");
    try reflexivity.
  discriminate.
Defined.

End UploadFacts.

(** ** The batch list *)

Module ListingFacts.

Import CaseConversion AssignmentPage Paths NamingRoundTrip UploadFacts.

(** The [map] of [fetchAssignmentData] over rows in persisted form throws
    nothing and keeps their order. *)
Lemma transformSubmissions_rows (rows : list value) :
  Forall (fun row => isRow row = true) rows ->
  transformSubmissions (VArr rows) = inr (List.map rowBatch rows).
Proof.
  intros Hrows. unfold transformSubmissions, Js.or. cbn [Js.truthy].
  induction Hrows as [|row rows Hrow _ IH]; [reflexivity|].
  cbn [mapOrThrow List.map]. rewrite (toBatch_row row Hrow).
  now rewrite IH.
Qed.

Lemma uploadedAt_rows (rows : list value) :
  List.map uploadedAt (List.map rowBatch rows)
  = List.map (fun row => column row "created_at") rows.
Proof. now rewrite map_map. Qed.

Section AnyWorld.
Context {W : Type}.
Variable serve : request -> W -> response * W.
Variable clock : W -> string * W.

(** A refresh whose two fetches succeed commits the assignment and the
    batches of the returned rows. *)
Lemma fetch_success (p : Params) (a : value) (s : State) (w w1 w2 w3 : W)
    (row : value) (rows : list value) :
  serve (assignmentQuery p) w = ({| data := row; error := None |}, w1) ->
  Js.truthy row = true ->
  stamped clock (transformToCamelCase row) w1 = (a, w2) ->
  serve (submissionsQuery p) w2
  = ({| data := VArr rows; error := None |}, w3) ->
  Forall (fun row => isRow row = true) rows ->
  final (run serve clock (fetchAssignmentData p) s w)
  = setLoading false (setSubmissions (List.map rowBatch rows) (setAssignment a s))
  /\ trace (run serve clock (fetchAssignmentData p) s w)
     = [Requested (assignmentQuery p); Requested (submissionsQuery p)].
Proof.
  intros H1 Htruthy Hstamp H2 Hrows.
  unfold fetchAssignmentData. cbn [run]. rewrite H1. cbn [error data].
  rewrite Htruthy. cbn [negb].
  unfold stamped in Hstamp.
  destruct (missingDates (transformToCamelCase row)).
  - cbn [run].
    destruct (clock w1) as [created wa].
    destruct (clock wa) as [updated wb].
    injection Hstamp as <- <-.
    cbn [run]. rewrite H2. cbn [error data].
    rewrite (transformSubmissions_rows rows Hrows). split; reflexivity.
  - injection Hstamp as <- <-.
    cbn [run]. rewrite H2. cbn [error data].
    rewrite (transformSubmissions_rows rows Hrows). split; reflexivity.
Qed.

(** C5, as the code has it.  The page asks the boundary for the rows of
    the assignment ordered by [created_at], descending, and by nothing
    else, and commits one batch per returned row in the order of the rows:
    the creation times of the list are those of the rows, so the list is
    newest first whenever the rows are, and batches created at the same
    time stay in the order in which the boundary returned them.  A batch
    that has just been created is put first. *)
Theorem listBatches_keeps_boundary_order
    (p : Params) (a : value) (s seen : State) (w w1 w2 w3 w4 : W)
    (row created : value) (rows : list value)
    (files : list File) (name : string) :
  serve (assignmentQuery p) w = ({| data := row; error := None |}, w1) ->
  Js.truthy row = true ->
  stamped clock (transformToCamelCase row) w1 = (a, w2) ->
  serve (submissionsQuery p) w2
  = ({| data := VArr rows; error := None |}, w3) ->
  Forall (fun row => isRow row = true) rows ->
  serve (submissionInsert p files name) w
  = ({| data := created; error := None |}, w4) ->
  isRow created = true ->
  let listed := submissions (final (run serve clock (fetchAssignmentData p) s w)) in
  submissionsQuery p
  = SelectOrdered "submissions" "assignment_id" (VStr (assignmentId p))
                  "created_at" false
  /\ listed = List.map rowBatch rows
  /\ List.map id listed = List.map (fun r => column r "id") rows
  /\ List.map uploadedAt listed
     = List.map (fun r => column r "created_at") rows
  /\ (forall newer : value -> value -> Prop,
        StronglySorted newer (List.map (fun r => column r "created_at") rows) ->
        StronglySorted newer (List.map uploadedAt listed))
  /\ submissions
       (final (run serve clock (handleSubmitFiles p seen files name) s w))
     = rowBatch created :: submissions seen.
Proof.
  intros H1 Htruthy Hstamp H2 Hrows H3 Hcreated. cbv zeta.
  destruct (fetch_success p a s w w1 w2 w3 row rows H1 Htruthy Hstamp H2 Hrows)
    as [Hf _].
  destruct (submit_accepted serve clock p seen s files name w w4 created
              H3 Hcreated) as [Hs _].
  rewrite Hf, Hs. cbn [submissions setLoading setSubmissions setShowUploadForm].
  rewrite uploadedAt_rows, map_map.
  repeat split. auto.
Qed.

End AnyWorld.

(** C5, as stated, fails: two batches created at the same time are listed
    in the order in which the boundary returns them, "a" before "b" for
    one answer and "b" before "a" for the other; the identifier breaks no
    tie. *)
Lemma listBatches_ties_follow_boundary :
  let listed world :=
    submissions (final (run Script.serve Script.clock
                            (fetchAssignmentData Samples.params)
                            Samples.committed world)) in
  List.map id (listed Samples.tiedAB) = [VStr "a"; VStr "b"]
  /\ List.map id (listed Samples.tiedBA) = [VStr "b"; VStr "a"]
  /\ List.map uploadedAt (listed Samples.tiedAB)
     = List.map uploadedAt (listed Samples.tiedBA)
  /\ requests (trace (run Script.serve Script.clock
                          (fetchAssignmentData Samples.params)
                          Samples.committed Samples.tiedAB))
     = requests (trace (run Script.serve Script.clock
                            (fetchAssignmentData Samples.params)
                            Samples.committed Samples.tiedBA)).
Proof. cbv zeta. repeat split; reflexivity. Qed.

Lemma listBatches_keeps_boundary_order_witness :
  let listed :=
    submissions (final (run Script.serve Script.clock
                            (fetchAssignmentData Samples.params)
                            Samples.committed Samples.threeBatches)) in
  List.map uploadedAt listed
  = [ VStr "2025-03-03T00:00:00.000Z"; VStr "2025-03-02T00:00:00.000Z";
      VStr "2025-03-01T00:00:00.000Z" ]
  /\ StronglySorted Samples.newerOrEqual (List.map uploadedAt listed).
Proof.
  cbv zeta.
  destruct (listBatches_keeps_boundary_order Script.serve Script.clock
              Samples.params
              (transformToCamelCase Samples.newAssignmentRow)
              Samples.committed Samples.committed
              Samples.threeBatches
              {| Script.answers := [Script.ok (VArr [Samples.row3; Samples.row2; Samples.row1])];
                 Script.times := [] |}
              {| Script.answers := [Script.ok (VArr [Samples.row3; Samples.row2; Samples.row1])];
                 Script.times := [] |}
              {| Script.answers := []; Script.times := [] |}
              {| Script.answers := [Script.ok (VArr [Samples.row3; Samples.row2; Samples.row1])];
                 Script.times := [] |}
              Samples.newAssignmentRow Samples.newAssignmentRow
              [Samples.row3; Samples.row2; Samples.row1]
              ["a.pdf"] "Week 2")
    as (_ & _ & _ & Htimes & Hsorted & _); try reflexivity.
  - repeat constructor.
  - split; [exact Htimes|].
    apply Hsorted. repeat constructor.
Defined.

End ListingFacts.

(** ** Idempotence on the update path *)

Module UpdatePathFacts.

Import CaseConversion AssignmentPage NamingRoundTrip.

Section AnyWorld.
Context {W : Type}.
Variable serve : request -> W -> response * W.
Variable clock : W -> string * W.

(** What the grading-criteria dialog publishes after an accepted update:
    the returned row in canonical form, first of its calls. *)
Lemma criteria_publishes_canonical
    (props : EditGradingCriteriaDialog.Props)
    (seen s : EditGradingCriteriaDialog.State) (w : W) :
  let now := fst (clock w) in
  let r := fst (serve (EditGradingCriteriaDialog.criteriaUpdate
                         props (EditGradingCriteriaDialog.gradingCriteria seen)
                         now)
                      (snd (clock w))) in
  error r = None ->
  events (trace (run serve clock
                     (EditGradingCriteriaDialog.handleSubmit props seen) s w))
  = [ OnAssignmentUpdated (transformToCamelCase (data r));
      OnOpenChange false;
      ToastSuccess "Grading criteria updated successfully" ].
Proof.
  cbv zeta. unfold EditGradingCriteriaDialog.handleSubmit. cbn [run].
  destruct (clock w) as [now w1]. cbn [fst snd run].
  destruct (serve _ w1) as [r w2]. cbn [fst].
  intros ->. reflexivity.
Qed.

(** C10.  [transformToCamelCase] returns a record that is already in
    canonical form unchanged, and applied to its own result, whatever the
    record, it changes nothing; so [handleAssignmentUpdated], which applies
    it once more to the record the grading-criteria dialog has already
    converted, commits the very record that was published. *)
Theorem transformToCamelCase_idempotent
    (x row : value) (s : State) (w : W) :
  canonical x = true ->
  transformToCamelCase x = x
  /\ transformToCamelCase (transformToCamelCase row) = transformToCamelCase row
  /\ assignment (final (run serve clock (handleAssignmentUpdated x) s w)) = x
  /\ assignment
       (final (run serve clock
                   (handleAssignmentUpdated (transformToCamelCase row)) s w))
     = transformToCamelCase row.
Proof.
  intros Hx. repeat split.
  - now apply canonical_fixed.
  - apply camel_twice.
  - cbn. now apply canonical_fixed.
  - cbn. apply camel_twice.
Qed.

End AnyWorld.

Lemma transformToCamelCase_idempotent_witness :
  transformToCamelCase Samples.canonicalSample = Samples.canonicalSample
  /\ transformToCamelCase (transformToCamelCase Samples.updatedAssignmentRow)
     = transformToCamelCase Samples.updatedAssignmentRow
  /\ assignment
       (final (run Script.serve Script.clock
                   (handleAssignmentUpdated Samples.canonicalSample)
                   Samples.committed Samples.criteriaUpdateAccepted))
     = Samples.canonicalSample
  /\ assignment
       (final (run Script.serve Script.clock
                   (handleAssignmentUpdated
                      (transformToCamelCase Samples.updatedAssignmentRow))
                   Samples.committed Samples.criteriaUpdateAccepted))
     = transformToCamelCase Samples.updatedAssignmentRow.
Proof.
  apply (transformToCamelCase_idempotent Script.serve Script.clock
           Samples.canonicalSample Samples.updatedAssignmentRow
           Samples.committed Samples.criteriaUpdateAccepted).
  reflexivity.
Defined.

End UpdatePathFacts.

(** ** The class edit dialog *)

Module ClassFacts.

Import EditClassDialog CharFacts.

Lemma toUpperCase_no_lower (s : string) :
  Str.forallb (fun c => negb (Char.is_lower c)) (Str.toUpperCase s) = true.
Proof.
  unfold Str.toUpperCase.
  induction s as [|c s IH]; [reflexivity|].
  cbn [Str.map Str.forallb].
  now rewrite to_upper_not_lower, IH.
Qed.

Lemma toUpperCase_toLowerCase (s : string) :
  Str.toUpperCase (Str.toLowerCase s) = Str.toUpperCase s.
Proof.
  unfold Str.toUpperCase, Str.toLowerCase.
  induction s as [|c s IH]; [reflexivity|].
  cbn [Str.map].
  now rewrite to_upper_to_lower, IH.
Qed.

(** Codes that differ in letter case only have the same upper-cased
    form. *)
Lemma toUpperCase_any_case (s t : string) :
  Str.toLowerCase s = Str.toLowerCase t ->
  Str.toUpperCase s = Str.toUpperCase t.
Proof.
  intros H. rewrite <- (toUpperCase_toLowerCase s), H.
  apply toUpperCase_toLowerCase.
Qed.

Example toUpperCase_cs101 : Str.toUpperCase "cs101" = "CS101".
Proof. reflexivity. Qed.

(** The violations of all fields are empty only if those of each are. *)
Lemma no_issue_inv (a b c d e f g : list Issue) (fd fd' : FormData) :
  match a ++ b ++ c ++ d ++ e ++ f ++ g with
  | [] => inr fd
  | issues => inl issues
  end = inr fd' ->
  fd = fd' /\ d = [].
Proof.
  destruct a; [|discriminate]. destruct b; [|discriminate].
  destruct c; [|discriminate]. destruct d; [|discriminate].
  simpl. destruct (e ++ f ++ g); [|discriminate].
  intros H. injection H as <-. auto.
Qed.

Lemma at_path_nil (p : string) (msgs : list string) :
  at_path p msgs = [] -> msgs = [].
Proof. destruct msgs; [reflexivity | discriminate]. Qed.

(** The code of a payload that passes the schema has 2 to 10 characters,
    all of them letters or digits. *)
Lemma runChecks_code (s : string) :
  fst (runChecks codeChecks s) = [] ->
  2 <= Str.len s <= 10 /\ alphanumeric s = true.
Proof.
  cbn [runChecks codeChecks fst].
  destruct (Str.len s <? 2) eqn:Hmin; [discriminate|].
  destruct (10 <? Str.len s) eqn:Hmax; [discriminate|].
  destruct (alphanumeric s) eqn:Hre; [|discriminate].
  intros _. apply Nat.ltb_ge in Hmin, Hmax. auto.
Qed.

Lemma trimStart_no_space (s : string) :
  Str.forallb (fun c => negb (Char.is_space c)) s = true -> Str.trimStart s = s.
Proof.
  destruct s as [|c s]; [reflexivity|]. cbn [Str.forallb Str.trimStart].
  intros H. apply andb_prop in H as [Hc _].
  apply negb_true_iff in Hc. now rewrite Hc.
Qed.

Lemma trimEnd_no_space (s : string) :
  Str.forallb (fun c => negb (Char.is_space c)) s = true -> Str.trimEnd s = s.
Proof.
  induction s as [|c s IH]; [reflexivity|]. cbn [Str.forallb Str.trimEnd].
  intros H. apply andb_prop in H as [Hc Hs].
  apply negb_true_iff in Hc. rewrite (IH Hs), Hc. now destruct s.
Qed.

Lemma alnum_not_space (c : ascii) :
  Char.is_upper c || Char.is_lower c || Char.is_digit c = true ->
  negb (Char.is_space c) = true.
Proof. by_cases_on c. Qed.

(** [trim] has nothing to remove from a code that matches the pattern. *)
Lemma trim_alphanumeric (s : string) :
  alphanumeric s = true -> Str.trim s = s.
Proof.
  unfold alphanumeric. intros H. apply andb_prop in H as [_ H].
  assert (Hs : Str.forallb (fun c => negb (Char.is_space c)) s = true).
  { induction s as [|c s IH]; [reflexivity|]. cbn [Str.forallb] in *.
    apply andb_prop in H as [Hc Hr].
    now rewrite (alnum_not_space c Hc), (IH Hr). }
  unfold Str.trim. now rewrite (trimStart_no_space s Hs), trimEnd_no_space.
Qed.

(** The payload the handler receives carries the code as it was typed. *)
Lemma editClassSchema_code (values formData : FormData) :
  editClassSchema values = inr formData ->
  code formData = code values
  /\ 2 <= Str.len (code values) <= 10
  /\ alphanumeric (code values) = true.
Proof.
  unfold editClassSchema.
  destruct (runChecks titleChecks (title values)) as [eT vT].
  destruct (runChecks descriptionChecks (description values)) as [eD vD].
  destruct (runChecks codeChecks (code values)) as [eC vC] eqn:HC.
  destruct (runChecks scheduleChecks (schedule values)) as [eS vS].
  destruct (runChecks termChecks (term values)) as [eM vM].
  intros H. apply no_issue_inv in H as [<- HeC]. cbn [code].
  apply at_path_nil in HeC. subst eC.
  destruct (runChecks_code (code values)) as [Hlen Hre];
    [now rewrite HC|].
  repeat split; try tauto.
  assert (Hv : vC = Str.trim (code values))
    by (cbn [runChecks codeChecks] in HC; congruence).
  rewrite Hv. now apply trim_alphanumeric.
Qed.

(** A title of fewer than 3 characters is a violation. *)
Lemma short_title_rejected (values : FormData) :
  Str.len (title values) < 3 ->
  exists issues, editClassSchema values = inl issues.
Proof.
  intros Hlen. unfold editClassSchema.
  cbn [runChecks titleChecks].
  apply Nat.ltb_lt in Hlen. rewrite Hlen.
  destruct (runChecks descriptionChecks (description values)) as [eD vD].
  destruct (runChecks codeChecks (code values)) as [eC vC].
  destruct (runChecks scheduleChecks (schedule values)) as [eS vS].
  destruct (runChecks termChecks (term values)) as [eM vM].
  cbn [at_path List.map app]. eauto.
Qed.

Section AnyWorld.
Context {W : Type}.
Variable serve : request -> W -> response * W.
Variable clock : W -> string * W.

(** [handleSubmit] issues one update of [classes], scoped to the
    identifier of the class, stamped with the reading of the clock. *)
Lemma handleSubmit_requests (props : Props) (formData : FormData)
    (s : State) (w : W) :
  requests (trace (run serve clock (handleSubmit props formData) s w))
  = [classUpdate props formData (fst (clock w))].
Proof.
  unfold handleSubmit. cbn [run].
  destruct (clock w) as [now w1]. cbn [fst run].
  destruct (serve (classUpdate props formData now) w1) as [r w2].
  destruct (error r); reflexivity.
Qed.

(** C4.  Whatever the letter case of the code of the payload, the update
    that a class edit sends to the boundary carries the upper-cased form
    of that code, which has no lower-case letter and is the same for codes
    that differ in case only; a row that takes the patch holds that value
    in [code]; "cs101" is sent as "CS101".  The same holds from the form:
    a payload that passes the schema reaches the boundary with its code
    upper-cased. *)
Theorem class_code_sent_upper_cased
    (props : Props) (values formData : FormData) (s : State) (w : W)
    (row : list (string * value)) :
  editClassSchema values = inr formData ->
  let now := fst (clock w) in
  let sent := VStr (Str.toUpperCase (code values)) in
  requests (trace (run serve clock (onSubmit props values) s w))
  = [UpdateSingle "classes" (classPatch formData now)
                  "id" (Js.prop (classData props) "id")]
  /\ Js.prop (classPatch formData now) "code" = sent
  /\ Js.prop (Store.applyPatch (VObj row) (classPatch formData now)) "code"
     = sent
  /\ Str.forallb (fun c => negb (Char.is_lower c))
                 (Str.toUpperCase (code values)) = true
  /\ (forall other, Str.toLowerCase other = Str.toLowerCase (code values) ->
                    VStr (Str.toUpperCase other) = sent)
  /\ Str.toUpperCase "cs101" = "CS101".
Proof.
  intros Hvalid. cbv zeta.
  destruct (editClassSchema_code values formData Hvalid) as (Hcode & _ & _).
  split; [|split; [|split; [|split; [|split]]]].
  - unfold onSubmit. rewrite Hvalid. cbn [run].
    now rewrite handleSubmit_requests.
  - cbn. now rewrite Hcode.
  - unfold Store.applyPatch, classPatch, Js.prop.
    rewrite ObjFacts.get_fold_assign
      by (apply ObjFacts.nodup_keys_NoDup; reflexivity).
    cbn. now rewrite Hcode.
  - apply toUpperCase_no_lower.
  - intros other H. f_equal. now apply toUpperCase_any_case.
  - reflexivity.
Qed.

(** C9.  A payload that fails the schema never becomes a call: the run of
    the form's submit handler issues no request and makes no call to a
    listener, leaves the world outside (the persisted record with it) as
    it was, and only records the violations in the errors of the form.
    A title of fewer than 3 characters is such a payload. *)
Theorem invalid_class_edit_reaches_nothing
    (props : Props) (values : FormData) (issues : list Issue)
    (s : State) (w : W) :
  editClassSchema values = inl issues ->
  run serve clock (onSubmit props values) s w
  = {| final := setErrors issues s; world := w; trace := [] |}
  /\ loading (final (run serve clock (onSubmit props values) s w)) = loading s
  /\ (forall short, Str.len (title short) < 3 ->
        trace (run serve clock (onSubmit props short) s w) = []
        /\ world (run serve clock (onSubmit props short) s w) = w).
Proof.
  intros Hinvalid. split; [|split].
  - unfold onSubmit. now rewrite Hinvalid.
  - unfold onSubmit. now rewrite Hinvalid.
  - intros short Hshort.
    destruct (short_title_rejected short Hshort) as [found Hfound].
    unfold onSubmit. rewrite Hfound. split; reflexivity.
Qed.

End AnyWorld.

Lemma class_code_sent_upper_cased_witness :
  requests (trace (run Script.serve Script.clock
                       (onSubmit Samples.classProps Samples.classForm)
                       Samples.classDialog Samples.classUpdateAccepted))
  = [UpdateSingle "classes"
       (VObj [ ("title", VStr "Algorithms");
               ("description", VStr "Design and analysis of algorithms");
               ("department", VStr "Computer Science");
               ("code", VStr "CS101");
               ("schedule", VStr "Mon 2-3 PM");
               ("term", VStr "Spring 2025");
               ("status", VStr "active");
               ("updated_at", VStr "2025-04-01T00:00:00.000Z") ])
       "id" (VStr "c1")].
Proof.
  exact (proj1 (class_code_sent_upper_cased Script.serve Script.clock
                  Samples.classProps Samples.classForm Samples.classForm
                  Samples.classDialog Samples.classUpdateAccepted []
                  eq_refl)).
Defined.

Lemma invalid_class_edit_reaches_nothing_witness :
  run Script.serve Script.clock
      (onSubmit Samples.classProps Samples.shortTitleForm)
      Samples.classDialog Samples.classUpdateAccepted
  = {| final :=
         setErrors [ {| path := "title";
                        reason := "Title must be at least 3 characters" |} ]
                   Samples.classDialog;
       world := Samples.classUpdateAccepted;
       trace := [] |}.
Proof.
  apply (invalid_class_edit_reaches_nothing Script.serve Script.clock
           Samples.classProps Samples.shortTitleForm
           [ {| path := "title";
                reason := "Title must be at least 3 characters" |} ]
           Samples.classDialog Samples.classUpdateAccepted).
  reflexivity.
Defined.

End ClassFacts.

(** ** Record mutations *)

Module MutationFacts.

Import CaseConversion Paths.

Lemma requests_app (t1 t2 : list obs) :
  requests (t1 ++ t2) = requests t1 ++ requests t2.
Proof.
  induction t1 as [|[r|e] t1 IH]; simpl; [reflexivity | now rewrite IH | exact IH].
Qed.

(** The patch of the grading-criteria dialog has the two fields of the
    literal, under the names they already have. *)
Lemma transformedData_fields (g now : string) :
  EditGradingCriteriaDialog.transformedData g now
  = VObj [ ("grading_criteria", VStr g); ("updated_at", VStr now) ].
Proof. reflexivity. Qed.

(** Follows a run through every answer of the world: each [match] and
    [if] the run is stuck on is split. *)
Ltac run_cases :=
  repeat (cbn [run observe trace requests negb];
          match goal with
          | |- context [match ?x with _ => _ end] => destruct x
          | |- context [if ?b then _ else _] => destruct b
          end).

Section AnyWorld.
Context {W : Type}.
Variable serve : request -> W -> response * W.
Variable clock : W -> string * W.

(** Running [await p; q] is running [p], then [q] from where [p] ended. *)
Lemma run_andThen {S : Type} (p q : prog S) (s : S) (w : W) :
  run serve clock (andThen p q) s w
  = let o := run serve clock p s w in
    let o' := run serve clock q (final o) (world o) in
    {| final := final o'; world := world o'; trace := trace o ++ trace o' |}.
Proof.
  revert s w. induction p as [|r k IH|k IH|f k IH|e k IH]; intros s w;
    cbn [andThen run].
  - cbn. now destruct (run serve clock q s w).
  - destruct (serve r w) as [resp w']. now rewrite IH.
  - destruct (clock w) as [d w']. now rewrite IH.
  - now rewrite IH.
  - now rewrite IH.
Qed.

(** The two fetches of the page read; they write nothing. *)
Lemma fetch_reads_only (p : AssignmentPage.Params)
    (s : AssignmentPage.State) (w : W) :
  Forall (fun r => writesAssignments r = false)
    (requests (trace (run serve clock (AssignmentPage.fetchAssignmentData p) s w))).
Proof.
  unfold AssignmentPage.fetchAssignmentData.
  run_cases; repeat constructor.
Qed.

(** No handler of the page and no submission of the class form writes
    the [assignments] table. *)
Lemma source_paths_leave_assignments (path : other) (st : states) (w : W) :
  inSources path = true ->
  Forall (fun r => writesAssignments r = false)
         (requestsOf serve clock path st w).
Proof.
  destruct path as [p|p|p|p seen files name|a|props values|props formData];
    cbn [requestsOf]; intros Hsrc; [| | | | | |discriminate].
  - apply fetch_reads_only.
  - unfold AssignmentPage.handleRefresh. cbn [run].
    rewrite run_andThen. cbv zeta. cbn [trace run app].
    rewrite app_nil_r. apply fetch_reads_only.
  - repeat constructor.
  - rewrite UploadFacts.submit_requests. repeat constructor.
  - repeat constructor.
  - unfold EditClassDialog.onSubmit.
    destruct (EditClassDialog.editClassSchema values) as [issues|formData].
    + repeat constructor.
    + cbn [run]. rewrite ClassFacts.handleSubmit_requests. repeat constructor.
Qed.

Lemma writesAssignments_writesCriteria (r : request) :
  writesAssignments r = false -> writesCriteria r = false.
Proof.
  destruct r as [| |t row|t patch c v]; try reflexivity; cbn.
  - intros ->. now destruct row.
  - intros ->. now destruct patch.
Qed.

(** The general assignment edit updates [assignments] without the
    grading criteria. *)
Lemma general_edit_requests (props : EditAssignmentDialog.Props)
    (formData : EditAssignmentDialog.FormData)
    (s : EditAssignmentDialog.State) (w : W) :
  requests (trace (run serve clock
                       (EditAssignmentDialog.handleSubmit props formData) s w))
  = [EditAssignmentDialog.assignmentUpdate props formData (fst (clock w))].
Proof.
  unfold EditAssignmentDialog.handleSubmit. cbn [run].
  destruct (clock w) as [now w1]. cbn [fst run].
  destruct (serve _ w1) as [r w2].
  destruct (error r); reflexivity.
Qed.

(** No other handler writes the grading criteria. *)
Lemma other_paths_leave_criteria (path : other) (st : states) (w : W) :
  Forall (fun r => writesCriteria r = false)
         (requestsOf serve clock path st w).
Proof.
  destruct (inSources path) eqn:Hsrc.
  - eapply Forall_impl; [|exact (source_paths_leave_assignments path st w Hsrc)].
    exact writesAssignments_writesCriteria.
  - destruct path; try discriminate. cbn [requestsOf].
    rewrite general_edit_requests. repeat constructor.
Qed.

(** The grading-criteria dialog issues one update of [assignments], scoped
    to the identifier of the assignment, stamped with the reading of the
    clock. *)
Lemma criteria_requests (props : EditGradingCriteriaDialog.Props)
    (seen s : EditGradingCriteriaDialog.State) (w : W) :
  requests (trace (run serve clock
                       (EditGradingCriteriaDialog.handleSubmit props seen) s w))
  = [EditGradingCriteriaDialog.criteriaUpdate
       props (EditGradingCriteriaDialog.gradingCriteria seen) (fst (clock w))].
Proof.
  unfold EditGradingCriteriaDialog.handleSubmit. cbn [run].
  destruct (clock w) as [now w1]. cbn [fst run].
  destruct (serve _ w1) as [r w2].
  destruct (error r); reflexivity.
Qed.

(** C7.  The update that the grading-criteria dialog issues writes two
    fields, [grading_criteria] with the text of the dialog and
    [updated_at] with the current time, in one request scoped to the
    identifier of the assignment; a row that takes the patch keeps every
    other field; and no other handler writes the grading criteria: those
    of the assignment page and the submission of the class form do not
    write the [assignments] table at all, and the patch of the general
    assignment edit does not name the field. *)
Theorem criteria_edit_writes_two_fields
    (props : EditGradingCriteriaDialog.Props)
    (seen s : EditGradingCriteriaDialog.State) (w : W)
    (row : list (string * value)) (k : string)
    (path : other) (st : states) :
  k <> "grading_criteria" -> k <> "updated_at" ->
  let g := EditGradingCriteriaDialog.gradingCriteria seen in
  let now := fst (clock w) in
  let patch := VObj [ ("grading_criteria", VStr g); ("updated_at", VStr now) ] in
  requests (trace (run serve clock
                       (EditGradingCriteriaDialog.handleSubmit props seen) s w))
  = [UpdateSingle "assignments" patch
                  "id" (Js.prop (EditGradingCriteriaDialog.assignment props) "id")]
  /\ Js.prop (Store.applyPatch (VObj row) patch) k = Js.prop (VObj row) k
  /\ Js.prop (Store.applyPatch (VObj row) patch) "grading_criteria" = VStr g
  /\ Js.prop (Store.applyPatch (VObj row) patch) "updated_at" = VStr now
  /\ Forall (fun r => writesCriteria r = false)
            (requestsOf serve clock path st w)
  /\ (inSources path = true ->
      Forall (fun r => writesAssignments r = false)
             (requestsOf serve clock path st w)).
Proof.
  intros Hk1 Hk2. cbv zeta.
  assert (Hnd : NoDup (Obj.keys
            [ ("grading_criteria", VStr (EditGradingCriteriaDialog.gradingCriteria seen));
              ("updated_at", VStr (fst (clock w))) ]))
    by (apply ObjFacts.nodup_keys_NoDup; reflexivity).
  split; [|split; [|split; [|split; [|split]]]].
  - rewrite criteria_requests. reflexivity.
  - unfold Store.applyPatch, Js.prop.
    rewrite (ObjFacts.get_fold_assign k _ row Hnd). cbn [Obj.get].
    apply String.eqb_neq in Hk1, Hk2.
    rewrite String.eqb_sym in Hk1. rewrite String.eqb_sym in Hk2.
    now rewrite Hk1, Hk2.
  - unfold Store.applyPatch, Js.prop.
    now rewrite (ObjFacts.get_fold_assign _ _ row Hnd).
  - unfold Store.applyPatch, Js.prop.
    now rewrite (ObjFacts.get_fold_assign _ _ row Hnd).
  - apply other_paths_leave_criteria.
  - apply source_paths_leave_assignments.
Qed.

End AnyWorld.

Lemma criteria_edit_writes_two_fields_witness :
  requests (trace (run Script.serve Script.clock
                       (EditGradingCriteriaDialog.handleSubmit
                          Samples.criteriaProps Samples.criteriaDialog)
                       Samples.criteriaDialog Samples.criteriaUpdateAccepted))
  = [UpdateSingle "assignments"
       (VObj [ ("grading_criteria", VStr "Content 40, form 60");
               ("updated_at", VStr "2025-04-01T00:00:00.000Z") ])
       "id" (VStr "a1")]
  /\ Js.prop (Store.applyPatch Samples.updatedAssignmentRow
                (VObj [ ("grading_criteria", VStr "Content 40, form 60");
                        ("updated_at", VStr "2025-04-01T00:00:00.000Z") ]))
             "title"
     = VStr "Essay".
Proof.
  destruct (criteria_edit_writes_two_fields Script.serve Script.clock
              Samples.criteriaProps Samples.criteriaDialog
              Samples.criteriaDialog Samples.criteriaUpdateAccepted
              [ ("id", VStr "a1"); ("title", VStr "Essay");
                ("grading_criteria", VStr "Content 40, form 60");
                ("created_at", VStr "2025-01-01T00:00:00.000Z");
                ("updated_at", VStr "2025-04-01T00:00:00.000Z") ]
              "title" Samples.generalEdit Samples.somewhere)
    as (Hreq & Hkeep & _); try discriminate.
  split; [exact Hreq | exact Hkeep].
Defined.

End MutationFacts.

(** ** The assignment page beyond its claims *)

Module FetchFacts.

Import CaseConversion AssignmentPage Paths Render MutationFacts.

Lemma truthy_transformKeys (f : string -> string) (v : value) :
  Js.truthy (transformKeys f v) = Js.truthy v.
Proof. now destruct v. Qed.

Lemma truthy_withDates (created updated : string) (a : value) :
  Js.truthy (withDates created updated a) = Js.truthy a.
Proof. now destruct a. Qed.

Section AnyWorld.
Context {W : Type}.
Variable serve : request -> W -> response * W.
Variable clock : W -> string * W.

(** X1.  When the assignment query answers without a row and without an
    error, [fetchAssignmentData] asks for nothing else, shows
    "Assignment not found", navigates back to the class and leaves the
    committed assignment and batches as they were; [loading] is
    cleared. *)
Theorem fetch_without_row_navigates_back
    (p : Params) (s : State) (w w1 : W) (d : value) :
  serve (assignmentQuery p) w = ({| data := d; error := None |}, w1) ->
  Js.truthy d = false ->
  run serve clock (fetchAssignmentData p) s w
  = {| final := setLoading false s;
       world := w1;
       trace := [ Requested (assignmentQuery p);
                  Emitted (ToastError "Assignment not found");
                  Emitted (Navigate ("/dashboard/classes/" ++ classId p)) ] |}.
Proof.
  intros H Hd. unfold fetchAssignmentData. cbn [run]. rewrite H.
  cbn [error data]. now rewrite Hd.
Qed.

(** X2.  When the assignment query fails, [fetchAssignmentData] never asks
    for the batches: it shows the message of the error, or "Failed to load
    assignment data" when the message is empty, leaves the committed
    assignment and batches as they were and clears [loading]; it navigates
    back only when the message is "Assignment not found". *)
Theorem fetch_failure_keeps_view
    (p : Params) (s : State) (w w1 : W) (d : value) (e : JsError) :
  serve (assignmentQuery p) w = ({| data := d; error := Some e |}, w1) ->
  let out := run serve clock (fetchAssignmentData p) s w in
  final out = setLoading false s
  /\ requests (trace out) = [assignmentQuery p]
  /\ events (trace out)
     = ToastError (orElse (message e) "Failed to load assignment data")
       :: (if String.eqb (message e) "Assignment not found"
           then [Navigate ("/dashboard/classes/" ++ classId p)]
           else []).
Proof.
  intros H. cbv zeta. unfold fetchAssignmentData. cbn [run]. rewrite H.
  cbn [error].
  destruct (String.eqb (message e) "Assignment not found"); repeat split.
Qed.

(** [fetchAssignmentData] clears [loading] on every path. *)
Lemma fetch_clears_loading (p : Params) (s : State) (w : W) :
  loading (final (run serve clock (fetchAssignmentData p) s w)) = false.
Proof. unfold fetchAssignmentData. run_cases; reflexivity. Qed.

(** Without a row from the assignment query, only [loading] changes. *)
Lemma fetch_unfetched_keeps_state (p : Params) (s : State) (w : W) :
  error (fst (serve (assignmentQuery p) w)) <> None
  \/ Js.truthy (data (fst (serve (assignmentQuery p) w))) = false ->
  final (run serve clock (fetchAssignmentData p) s w) = setLoading false s.
Proof.
  unfold fetchAssignmentData. cbn [run].
  destruct (serve (assignmentQuery p) w) as [[d [e|]] w1]; cbn [fst error data].
  - intros _. now destruct (String.eqb (message e) "Assignment not found").
  - intros [H|H]; [congruence|]. now rewrite H.
Qed.

(** X3.  Whatever the boundary answers, [fetchAssignmentData] ends with
    [loading] cleared, touches none of [refreshing], [activeTab],
    [showUploadForm] and [showEditDialog], and issues the assignment query
    alone or the assignment query followed by the batch query. *)
Theorem fetch_always_settles (p : Params) (s : State) (w : W) :
  let out := run serve clock (fetchAssignmentData p) s w in
  loading (final out) = false
  /\ refreshing (final out) = refreshing s
  /\ activeTab (final out) = activeTab s
  /\ showUploadForm (final out) = showUploadForm s
  /\ showEditDialog (final out) = showEditDialog s
  /\ (requests (trace out) = [assignmentQuery p]
      \/ requests (trace out) = [assignmentQuery p; submissionsQuery p]).
Proof.
  cbv zeta. unfold fetchAssignmentData. run_cases; cbn; auto 10.
Qed.

(** Once the assignment query has answered with a row, the record that the
    page commits is decided: nothing after it sets the assignment again. *)
Lemma fetch_commits_stamped
    (p : Params) (s : State) (w w1 : W) (row : value) :
  serve (assignmentQuery p) w = ({| data := row; error := None |}, w1) ->
  Js.truthy row = true ->
  assignment (final (run serve clock (fetchAssignmentData p) s w))
  = fst (stamped clock (transformToCamelCase row) w1).
Proof.
  intros H Hrow. unfold fetchAssignmentData, stamped. cbn [run]. rewrite H.
  cbn [error data]. rewrite Hrow. cbn [negb].
  destruct (missingDates (transformToCamelCase row)).
  - cbn [run]. destruct (clock w1) as [created wa].
    destruct (clock wa) as [updated wb]. cbn [run fst].
    run_cases; reflexivity.
  - cbn [run fst]. run_cases; reflexivity.
Qed.

(** X4.  When the fetched record lacks one of its two dates, both are set
    to the readings of the clock, the one that was present included, and
    every other field of the record is committed as fetched, whatever the
    batch query answers afterwards. *)
Theorem missing_date_resets_both
    (p : Params) (s : State) (w w1 wa wb : W) (row : value)
    (fs : list (string * value)) (created updated k : string) :
  serve (assignmentQuery p) w = ({| data := row; error := None |}, w1) ->
  Js.truthy row = true ->
  transformToCamelCase row = VObj fs ->
  missingDates (VObj fs) = true ->
  clock w1 = (created, wa) ->
  clock wa = (updated, wb) ->
  k <> "createdAt" -> k <> "updatedAt" ->
  let a := assignment (final (run serve clock (fetchAssignmentData p) s w)) in
  Js.prop a "createdAt" = VStr created
  /\ Js.prop a "updatedAt" = VStr updated
  /\ Js.prop a k = Js.prop (VObj fs) k.
Proof.
  intros H Hrow Hfs Hmiss Hc Hu Hk1 Hk2. cbv zeta.
  rewrite (fetch_commits_stamped p s w w1 row H Hrow).
  unfold stamped. rewrite Hfs, Hmiss, Hc, Hu. cbn [fst].
  unfold withDates, Js.set_prop, Js.prop.
  rewrite ObjFacts.get_set_same.
  rewrite ObjFacts.get_set_other by discriminate.
  rewrite ObjFacts.get_set_same.
  rewrite !ObjFacts.get_set_other by congruence.
  repeat split.
Qed.

(** X5.  When the batch query answers without an error and without rows
    ([null]), the page commits the empty batch list. *)
Theorem fetch_without_batches_commits_empty
    (p : Params) (a : value) (s : State) (w w1 w2 w3 : W) (row d : value) :
  serve (assignmentQuery p) w = ({| data := row; error := None |}, w1) ->
  Js.truthy row = true ->
  stamped clock (transformToCamelCase row) w1 = (a, w2) ->
  serve (submissionsQuery p) w2 = ({| data := d; error := None |}, w3) ->
  Js.truthy d = false ->
  final (run serve clock (fetchAssignmentData p) s w)
  = setLoading false (setSubmissions [] (setAssignment a s))
  /\ events (trace (run serve clock (fetchAssignmentData p) s w)) = [].
Proof.
  intros H1 Hrow Hstamp H2 Hd.
  assert (Hnone : transformSubmissions d = inr []).
  { unfold transformSubmissions, Js.or. now rewrite Hd. }
  unfold fetchAssignmentData. cbn [run]. rewrite H1. cbn [error data].
  rewrite Hrow. cbn [negb]. unfold stamped in Hstamp.
  destruct (missingDates (transformToCamelCase row)).
  - cbn [run]. destruct (clock w1) as [created wa].
    destruct (clock wa) as [updated wb]. injection Hstamp as <- <-.
    cbn [run]. rewrite H2. cbn [error data]. rewrite Hnone. split; reflexivity.
  - injection Hstamp as <- <-.
    cbn [run]. rewrite H2. cbn [error data]. rewrite Hnone. split; reflexivity.
Qed.

(** X6.  After [fetchAssignmentData] the page never shows the loading
    skeleton: it shows the assignment when the assignment query answered
    with a row, and otherwise what it showed before the fetch, which from
    the first render is "Assignment not found". *)
Theorem fetch_leaves_no_skeleton (p : Params) (s : State) (w : W) :
  let r := fst (serve (assignmentQuery p) w) in
  let out := run serve clock (fetchAssignmentData p) s w in
  view (final out) <> Skeleton
  /\ (error r = None -> Js.truthy (data r) = true -> view (final out) = Main)
  /\ (error r <> None \/ Js.truthy (data r) = false ->
      view (final (run serve clock (fetchAssignmentData p) initial w))
      = NotFound).
Proof.
  cbv zeta.
  pose proof (fetch_clears_loading p s w) as Hload.
  split; [|split].
  - unfold view. rewrite Hload.
    now destruct (negb (Js.truthy (assignment (final
          (run serve clock (fetchAssignmentData p) s w))))).
  - intros Herr Hrow. unfold view. rewrite Hload.
    destruct (serve (assignmentQuery p) w) as [[d err] w1] eqn:H.
    cbn [fst error data] in Herr, Hrow. subst err.
    rewrite (fetch_commits_stamped p s w w1 d H Hrow).
    unfold stamped.
    destruct (missingDates (transformToCamelCase d)).
    + destruct (clock w1) as [c wa]. destruct (clock wa) as [u wb].
      cbn [fst]. unfold transformToCamelCase.
      now rewrite truthy_withDates, truthy_transformKeys, Hrow.
    + cbn [fst]. unfold transformToCamelCase.
      now rewrite truthy_transformKeys, Hrow.
  - intros Hbad.
    now rewrite (fetch_unfetched_keeps_state p initial w Hbad).
Qed.

(** [fetchAssignmentData] reads no cell of the state: what it commits and
    what it asks do not depend on [refreshing]. *)
Lemma fetch_ignores_refreshing (p : Params) (b : bool) (s : State) (w : W) :
  let plain := run serve clock (fetchAssignmentData p) s w in
  let other := run serve clock (fetchAssignmentData p) (setRefreshing b s) w in
  final other = setRefreshing b (final plain)
  /\ world other = world plain
  /\ trace other = trace plain.
Proof.
  cbv zeta. unfold fetchAssignmentData. run_cases; repeat split.
Qed.

(** X7.  [handleRefresh] is [fetchAssignmentData] between two settings of
    [refreshing]: it issues the same requests and makes the same calls,
    commits the same assignment and batches, and ends with [refreshing]
    and [loading] cleared whether the fetch failed or not. *)
Theorem refresh_is_fetch_with_spinner (p : Params) (s : State) (w : W) :
  let fetched := run serve clock (fetchAssignmentData p) s w in
  run serve clock (handleRefresh p) s w
  = {| final := setRefreshing false (final fetched);
       world := world fetched;
       trace := trace fetched |}
  /\ refreshing (final (run serve clock (handleRefresh p) s w)) = false
  /\ loading (final (run serve clock (handleRefresh p) s w)) = false.
Proof.
  cbv zeta.
  assert (Hrun : run serve clock (handleRefresh p) s w
    = {| final := setRefreshing false
                    (final (run serve clock (fetchAssignmentData p) s w));
         world := world (run serve clock (fetchAssignmentData p) s w);
         trace := trace (run serve clock (fetchAssignmentData p) s w) |}).
  { unfold handleRefresh. cbn [run]. rewrite run_andThen. cbv zeta.
    cbn [run final world trace].
    destruct (fetch_ignores_refreshing p true s w) as (Hf & Hw & Ht).
    rewrite Hf, Hw, Ht, app_nil_r. reflexivity. }
  rewrite Hrun. cbn [final]. split; [reflexivity|]. split; [reflexivity|].
  cbn. apply fetch_clears_loading.
Qed.

End AnyWorld.

Lemma fetch_without_row_navigates_back_witness :
  run Script.serve Script.clock (fetchAssignmentData Samples.params)
      Samples.committed MoreSamples.assignmentGone
  = {| final := setLoading false Samples.committed;
       world := {| Script.answers := []; Script.times := [] |};
       trace := [ Requested (assignmentQuery Samples.params);
                  Emitted (ToastError "Assignment not found");
                  Emitted (Navigate "/dashboard/classes/c1") ] |}.
Proof.
  apply (fetch_without_row_navigates_back Script.serve Script.clock
           Samples.params Samples.committed MoreSamples.assignmentGone
           {| Script.answers := []; Script.times := [] |} VNull);
    reflexivity.
Defined.

Lemma fetch_failure_keeps_view_witness :
  let out := run Script.serve Script.clock
                 (fetchAssignmentData Samples.params)
                 Samples.committed MoreSamples.assignmentFetchFails in
  final out = setLoading false Samples.committed
  /\ requests (trace out) = [assignmentQuery Samples.params]
  /\ events (trace out) = [ToastError "permission denied"].
Proof.
  apply (fetch_failure_keeps_view Script.serve Script.clock
           Samples.params Samples.committed MoreSamples.assignmentFetchFails
           {| Script.answers := []; Script.times := [] |} VNull
           {| message := "permission denied" |}).
  reflexivity.
Defined.

Lemma missing_date_resets_both_witness :
  let a := assignment (final (run Script.serve Script.clock
                                  (fetchAssignmentData Samples.params)
                                  Samples.committed
                                  MoreSamples.undatedAnswer)) in
  Js.prop a "createdAt" = VStr "2025-05-05T10:00:00.000Z"
  /\ Js.prop a "updatedAt" = VStr "2025-05-05T10:00:00.001Z"
  /\ Js.prop a "title" = VStr "Essay".
Proof.
  apply (missing_date_resets_both Script.serve Script.clock
           Samples.params Samples.committed MoreSamples.undatedAnswer
           {| Script.answers := [Script.ok (VArr [])];
              Script.times := [ "2025-05-05T10:00:00.000Z";
                                "2025-05-05T10:00:00.001Z" ] |}
           {| Script.answers := [Script.ok (VArr [])];
              Script.times := [ "2025-05-05T10:00:00.001Z" ] |}
           {| Script.answers := [Script.ok (VArr [])]; Script.times := [] |}
           MoreSamples.undatedRow
           [ ("id", VStr "a1"); ("title", VStr "Essay");
             ("createdAt", VStr "2025-01-01T00:00:00.000Z") ]
           "2025-05-05T10:00:00.000Z" "2025-05-05T10:00:00.001Z" "title");
    try reflexivity; discriminate.
Defined.

Lemma fetch_without_batches_commits_empty_witness :
  final (run Script.serve Script.clock
             (fetchAssignmentData Samples.params)
             Samples.committed MoreSamples.noBatches)
  = setLoading false
      (setSubmissions []
         (setAssignment (transformToCamelCase Samples.newAssignmentRow)
                        Samples.committed))
  /\ events (trace (run Script.serve Script.clock
                        (fetchAssignmentData Samples.params)
                        Samples.committed MoreSamples.noBatches))
     = [].
Proof.
  apply (fetch_without_batches_commits_empty Script.serve Script.clock
           Samples.params (transformToCamelCase Samples.newAssignmentRow)
           Samples.committed MoreSamples.noBatches
           {| Script.answers := [Script.ok VNull]; Script.times := [] |}
           {| Script.answers := [Script.ok VNull]; Script.times := [] |}
           {| Script.answers := []; Script.times := [] |}
           Samples.newAssignmentRow VNull);
    reflexivity.
Defined.

End FetchFacts.

(** ** Uploads and what is rendered from them *)

Module BatchFacts.

Import CaseConversion AssignmentPage Paths Render MutationFacts UploadFacts.

(** X8.  The batch built from a submission that is not [null] or
    [undefined] always has a display name that is not empty and a file
    count: a missing, [null] or empty [batchName] becomes "Batch " followed
    by the identifier, and a missing, [null] or zero [fileCount] becomes
    0. *)
Theorem toBatch_fills_defaults (c : value) :
  Js.nullish c = false ->
  exists b,
    toBatch c = inr b
    /\ Js.truthy (name b) = true
    /\ (Js.truthy (fileCount b) = true \/ fileCount b = VNum 0)
    /\ (Js.truthy (Js.prop c "batchName") = false ->
        name b = VStr ("Batch " ++ Js.to_string (Js.prop c "id")))
    /\ (Js.truthy (Js.prop c "batchName") = true ->
        name b = Js.prop c "batchName")
    /\ (Js.truthy (Js.prop c "fileCount") = false -> fileCount b = VNum 0).
Proof.
  intros Hc. unfold toBatch. rewrite Hc. eexists. split; [reflexivity|].
  cbn [name fileCount]. unfold Js.or.
  destruct (Js.truthy (Js.prop c "batchName")) eqn:Hn;
    destruct (Js.truthy (Js.prop c "fileCount")) eqn:Hf;
    repeat split; auto; discriminate.
Qed.

Lemma toBatch_fills_defaults_witness :
  exists b,
    toBatch (VObj [ ("id", VNum 7); ("batchName", VNull) ]) = inr b
    /\ name b = VStr "Batch 7"
    /\ fileCount b = VNum 0.
Proof.
  destruct (toBatch_fills_defaults
              (VObj [ ("id", VNum 7); ("batchName", VNull) ]) eq_refl)
    as (b & Hb & _ & _ & Hname & _ & Hcount).
  exists b. split; [exact Hb|]. split.
  - exact (Hname eq_refl).
  - exact (Hcount eq_refl).
Defined.

Section AnyWorld.
Context {W : Type}.
Variable serve : request -> W -> response * W.
Variable clock : W -> string * W.

(** X9.  Whatever the boundary answers, [handleSubmitFiles] issues its one
    insert, makes exactly one call, a toast, and leaves the assignment,
    [loading], [refreshing], [activeTab] and [showEditDialog] as they
    were; the upload form is closed only together with a success toast,
    and after an error toast the whole state is as it was. *)
Theorem submit_settles
    (p : Params) (seen s : State) (files : list File) (name : string)
    (w : W) :
  let out := run serve clock (handleSubmitFiles p seen files name) s w in
  requests (trace out) = [submissionInsert p files name]
  /\ assignment (final out) = assignment s
  /\ loading (final out) = loading s
  /\ refreshing (final out) = refreshing s
  /\ activeTab (final out) = activeTab s
  /\ showEditDialog (final out) = showEditDialog s
  /\ ((exists msg, events (trace out) = [ToastError msg] /\ final out = s)
      \/ (events (trace out) = [ToastSuccess "Files uploaded successfully"]
          /\ showUploadForm (final out) = false
          /\ exists b, submissions (final out) = b :: submissions seen)).
Proof.
  cbv zeta. split; [apply submit_requests|].
  unfold handleSubmitFiles. run_cases; cbn; repeat split; eauto 10.
Qed.

(** X10.  The list that [handleSubmitFiles] commits is built from the
    batches of the render it closed over, not from the batches committed
    at the time the insert is accepted: a batch that reached the list in
    between is dropped. *)
Theorem submit_commits_over_its_render
    (p : Params) (seen s : State) (files : list File) (name : string)
    (w w' : W) (row : value) (late : SubmissionBatch) :
  serve (submissionInsert p files name) w
  = ({| data := row; error := None |}, w') ->
  isRow row = true ->
  In late (submissions s) ->
  ~ In late (submissions seen) ->
  late <> rowBatch row ->
  submissions (final (run serve clock (handleSubmitFiles p seen files name) s w))
  = rowBatch row :: submissions seen
  /\ ~ In late (submissions
                  (final (run serve clock
                              (handleSubmitFiles p seen files name) s w))).
Proof.
  intros H Hrow _ Hseen Hne.
  destruct (submit_accepted serve clock p seen s files name w w' row H Hrow)
    as [Hf _].
  rewrite Hf. cbn [submissions setShowUploadForm setSubmissions].
  split; [reflexivity|]. intros [Heq|Hin]; [now apply Hne | now apply Hseen].
Qed.

End AnyWorld.

Lemma submit_commits_over_its_render_witness :
  let listed :=
    submissions
      (final (run Script.serve Script.clock
                  (handleSubmitFiles Samples.params Samples.committed
                                     ["a.pdf"; "b.pdf"; "c.pdf"] "")
                  MoreSamples.afterLateBatch Samples.threeFilesAccepted)) in
  listed
  = rowBatch (Samples.submissionRow "s3" "" "2025-03-02T00:00:00.000Z" 3)
    :: submissions Samples.committed
  /\ ~ In MoreSamples.lateBatch listed.
Proof.
  cbv zeta.
  apply (submit_commits_over_its_render Script.serve Script.clock
           Samples.params Samples.committed MoreSamples.afterLateBatch
           ["a.pdf"; "b.pdf"; "c.pdf"] "" Samples.threeFilesAccepted
           {| Script.answers := []; Script.times := [] |}
           (Samples.submissionRow "s3" "" "2025-03-02T00:00:00.000Z" 3)
           MoreSamples.lateBatch).
  - reflexivity.
  - reflexivity.
  - left. reflexivity.
  - intros [H|[]]. discriminate H.
  - discriminate.
Defined.

(** X11.  The upload form and the details card agree on the kind of file:
    audio files, labelled "Audio", when the type of the assignment is
    exactly the string "voice", and PDF files, labelled "PDF", for every
    other assignment, one without a type included. *)
Theorem upload_kind_matches_label (a : value) :
  (Js.prop a "type" = VStr "voice"
   /\ acceptedFileTypes a = ["audio/*"] /\ fileRequirement a = "Audio")
  \/ (Js.prop a "type" <> VStr "voice"
      /\ acceptedFileTypes a = ["application/pdf"]
      /\ fileRequirement a = "PDF").
Proof.
  unfold acceptedFileTypes, fileRequirement, isString.
  destruct (Js.prop a "type") as [| | | |t| |]; try (right; repeat split; discriminate).
  destruct (String.eqb t "voice") eqn:E.
  - apply String.eqb_eq in E. subst t. left. repeat split.
  - apply String.eqb_neq in E. right. repeat split. congruence.
Qed.

End BatchFacts.

(** ** The grading-criteria dialog and the details card beyond their claims *)

Module CriteriaFacts.

Import CaseConversion Paths NamingRoundTrip MutationFacts.
Import EditGradingCriteriaDialog.

(** A row in persisted form that takes a patch in persisted form is a row
    in persisted form. *)
Lemma applyPatch_row (old patch : list (string * value)) :
  isRow (VObj old) = true -> isRow (VObj patch) = true ->
  isRow (Store.applyPatch (VObj old) (VObj patch)) = true.
Proof.
  cbn [isRow Store.applyPatch]. unfold persisted. intros Hold Hpatch.
  destruct (TransformFacts.well_keyed_obj snake_key old Hold) as [Hnd Hall].
  destruct (TransformFacts.well_keyed_obj snake_key patch Hpatch) as [_ Hall'].
  cbn [well_keyed]. apply andb_true_intro. split.
  - apply ObjFacts.nodup_keys_NoDup. now apply ObjFacts.fold_assign_NoDup.
  - apply forallb_forall. intros kv Hin.
    rewrite Forall_forall in Hall, Hall'.
    destruct (ObjFacts.fold_assign_In _ _ _ Hin) as [H|H];
      [destruct (Hall _ H) as [-> ->] | destruct (Hall' _ H) as [-> ->]];
      reflexivity.
Qed.

Section AnyWorld.
Context {W : Type}.
Variable serve : request -> W -> response * W.
Variable clock : W -> string * W.

(** X12.  Whatever the boundary answers, [handleSubmit] of the
    grading-criteria dialog ends with [loading] cleared and the text of the
    dialog untouched; when the update is rejected it makes one call, the
    error toast, so the listener is not called and the dialog is not
    closed. *)
Theorem criteria_submit_settles (props : Props) (seen s : State) (w : W) :
  let r := fst (serve (criteriaUpdate props (gradingCriteria seen)
                                      (fst (clock w)))
                      (snd (clock w))) in
  let out := run serve clock (handleSubmit props seen) s w in
  loading (final out) = false
  /\ gradingCriteria (final out) = gradingCriteria s
  /\ (forall e, error r = Some e ->
        events (trace out)
        = [ToastError (orElse (message e) "Failed to update grading criteria")])
  /\ (error r = None ->
        events (trace out)
        = [ OnAssignmentUpdated (transformToCamelCase (data r));
            OnOpenChange false;
            ToastSuccess "Grading criteria updated successfully" ]).
Proof.
  cbv zeta. unfold handleSubmit. cbn [run].
  destruct (clock w) as [now w1]. cbn [fst snd run].
  destruct (serve (criteriaUpdate props (gradingCriteria seen) now) w1)
    as [r w2].
  cbn [fst]. destruct (error r) as [e|]; cbn; repeat split;
    try discriminate; intros; congruence.
Qed.

(** X13.  An accepted criteria edit, end to end: when the boundary stores
    the patch in the row of the assignment and returns the row, the record
    that the dialog publishes and [handleAssignmentUpdated] commits shows
    the text of the dialog as [gradingCriteria], the time of the edit as
    [updatedAt] and every other column of the stored row under its
    camel-cased name; the batch list of the page is untouched. *)
Theorem criteria_edit_reaches_page
    (props : Props) (seen ds : State) (ps : AssignmentPage.State)
    (w w2 : W) (old : list (string * value)) (k : string) :
  isRow (VObj old) = true ->
  snake_key k = true -> k <> "grading_criteria" -> k <> "updated_at" ->
  let g := gradingCriteria seen in
  let now := fst (clock w) in
  serve (criteriaUpdate props g now) (snd (clock w))
  = ({| data := Store.applyPatch (VObj old) (transformedData g now);
        error := None |}, w2) ->
  exists published,
    events (trace (run serve clock (handleSubmit props seen) ds w))
    = [ OnAssignmentUpdated published;
        OnOpenChange false;
        ToastSuccess "Grading criteria updated successfully" ]
    /\ let page :=
         final (run serve clock
                    (AssignmentPage.handleAssignmentUpdated published) ps w2) in
       Js.prop (AssignmentPage.assignment page) "gradingCriteria" = VStr g
       /\ Js.prop (AssignmentPage.assignment page) "updatedAt" = VStr now
       /\ Js.prop (AssignmentPage.assignment page) (toCamelCase k)
          = column (VObj old) k
       /\ AssignmentPage.submissions page = AssignmentPage.submissions ps.
Proof.
  intros Hold Hk Hk1 Hk2. cbv zeta. intros Hserve.
  set (g := gradingCriteria seen) in *.
  set (now := fst (clock w)) in *.
  set (stored := Store.applyPatch (VObj old) (transformedData g now)) in *.
  assert (Hrow : isRow stored = true).
  { unfold stored. rewrite transformedData_fields.
    now apply applyPatch_row. }
  assert (Hnd : NoDup (Obj.keys
            [ ("grading_criteria", VStr g); ("updated_at", VStr now) ]))
    by (apply ObjFacts.nodup_keys_NoDup; reflexivity).
  assert (Hget : forall c,
            Js.prop stored c
            = match Obj.get c [ ("grading_criteria", VStr g);
                                ("updated_at", VStr now) ] with
              | Some v => v
              | None => Js.prop (VObj old) c
              end).
  { intros c. unfold stored. rewrite transformedData_fields.
    unfold Store.applyPatch, Js.prop.
    rewrite (ObjFacts.get_fold_assign c _ old Hnd).
    now destruct (Obj.get c _). }
  exists (transformToCamelCase stored). split.
  - pose proof (UpdatePathFacts.criteria_publishes_canonical
                  serve clock props seen ds w) as Hok.
    cbv zeta in Hok. fold g now in Hok. rewrite Hserve in Hok.
    exact (Hok eq_refl).
  - cbn [run final AssignmentPage.handleAssignmentUpdated
         AssignmentPage.setAssignment AssignmentPage.assignment
         AssignmentPage.submissions].
    rewrite camel_twice.
    change "gradingCriteria" with (toCamelCase "grading_criteria").
    change "updatedAt" with (toCamelCase "updated_at").
    rewrite !prop_camel by (exact Hrow || exact Hk || reflexivity).
    rewrite !Hget. cbn [Obj.get].
    apply String.eqb_neq in Hk1, Hk2.
    rewrite String.eqb_sym in Hk1. rewrite String.eqb_sym in Hk2.
    rewrite Hk1, Hk2. repeat split.
Qed.

End AnyWorld.

Lemma criteria_edit_reaches_page_witness :
  exists published,
    events (trace (run Script.serve Script.clock
                       (handleSubmit Samples.criteriaProps
                                     Samples.criteriaDialog)
                       Samples.criteriaDialog MoreSamples.criteriaStored))
    = [ OnAssignmentUpdated published;
        OnOpenChange false;
        ToastSuccess "Grading criteria updated successfully" ]
    /\ let page :=
         final (run Script.serve Script.clock
                    (AssignmentPage.handleAssignmentUpdated published)
                    Samples.committed
                    {| Script.answers := []; Script.times := [] |}) in
       Js.prop (AssignmentPage.assignment page) "gradingCriteria"
       = VStr "Content 40, form 60"
       /\ Js.prop (AssignmentPage.assignment page) "updatedAt"
          = VStr "2025-04-01T00:00:00.000Z"
       /\ Js.prop (AssignmentPage.assignment page) "createdAt"
          = VStr "2025-01-01T00:00:00.000Z"
       /\ AssignmentPage.submissions page = [Samples.oldBatch].
Proof.
  apply (criteria_edit_reaches_page Script.serve Script.clock
           Samples.criteriaProps Samples.criteriaDialog
           Samples.criteriaDialog Samples.committed
           MoreSamples.criteriaStored
           {| Script.answers := []; Script.times := [] |}
           MoreSamples.storedAssignment "created_at");
    try reflexivity; discriminate.
Defined.

End CriteriaFacts.

Module DateFacts.

Import AssignmentDetails.

(** A prefix without "+" holds no occurrence of "+00:00". *)
Lemma replaceFirst_skips (x y : string) :
  Str.forallb (fun c => negb (Ascii.eqb c "+")) x = true ->
  replaceFirst "+00:00" "Z" (x ++ y) = (x ++ replaceFirst "+00:00" "Z" y)%string.
Proof.
  induction x as [|c x IH]; [reflexivity|].
  cbn [Str.forallb]. intros H. apply andb_prop in H as [Hc Hx].
  apply negb_true_iff, Ascii.eqb_neq in Hc.
  cbn [String.append replaceFirst String.prefix].
  destruct (ascii_dec "+" c) as [E|_]; [congruence|].
  now rewrite (IH Hx).
Qed.

Section Dates.
Variable parse : string -> option Z.
Variable format : Z -> string.

(** X14.  [formatDate] shows a timestamp that ends in the offset "+00:00"
    exactly as it shows the same timestamp ending in "Z": the offset is
    rewritten before the date is parsed.  A missing or empty date is shown
    as "Not available" and never reaches the parser. *)
Theorem formatDate_reads_offset_as_Z (stamp : string) (missing : value) :
  Str.forallb (fun c => negb (Ascii.eqb c "+")) stamp = true ->
  Js.truthy missing = false ->
  formatDate parse format (VStr (stamp ++ "+00:00"))
  = formatDate parse format (VStr (stamp ++ "Z"))
  /\ formatDate parse format (VStr (stamp ++ "+00:00"))
     = match parse (stamp ++ "Z") with
       | None => "Invalid date"
       | Some date => format date
       end
  /\ formatDate parse format missing = "Not available".
Proof.
  intros Hstamp Hmissing.
  assert (Hoff : Js.truthy (VStr (stamp ++ "+00:00")) = true)
    by (destruct stamp; reflexivity).
  assert (Hz : Js.truthy (VStr (stamp ++ "Z")) = true)
    by (destruct stamp; reflexivity).
  unfold formatDate. rewrite Hoff, Hz, Hmissing. cbn [negb].
  rewrite !(replaceFirst_skips stamp) by exact Hstamp.
  repeat split.
Qed.

End Dates.

Lemma formatDate_reads_offset_as_Z_witness :
  formatDate (fun _ => Some 0%Z) (fun _ => "Jan 1, 2025, 12:00 AM")
             (VStr "2025-01-01T00:00:00+00:00")
  = formatDate (fun _ => Some 0%Z) (fun _ => "Jan 1, 2025, 12:00 AM")
               (VStr "2025-01-01T00:00:00Z")
  /\ formatDate (fun _ => Some 0%Z) (fun _ => "Jan 1, 2025, 12:00 AM")
                VUndefined
     = "Not available".
Proof.
  refine ((fun H => conj (proj1 H) (proj2 (proj2 H))) _).
  apply (formatDate_reads_offset_as_Z
           (fun _ => Some 0%Z) (fun _ => "Jan 1, 2025, 12:00 AM")
           "2025-01-01T00:00:00" VUndefined);
    reflexivity.
Defined.

End DateFacts.

(** ** The class edit dialog beyond its claims *)

Module ClassMoreFacts.

Import EditClassDialog ClassPayload ClassFacts CharFacts.

(** Splits the schema on the next of its conditions. *)
Ltac next_check :=
  match goal with
  | |- context [negb (?n <=? ?m)] => destruct (n <=? m)
  | |- context [alphanumeric ?s] => destruct (alphanumeric s)
  | |- context [Obj.mem ?s ?l] => destruct (Obj.mem s l)
  end;
  cbn [negb andb app List.map at_path];
  try (intros _; eexists; split; [reflexivity | discriminate]).

Lemma editClassSchema_unfolded (values : FormData) :
  editClassSchema values
  = match
      at_path "title"
        ((if negb (3 <=? Str.len (title values))
          then ["Title must be at least 3 characters"] else [])
         ++ (if negb (Str.len (title values) <=? 100)
             then ["Title must be less than 100 characters"] else []))
      ++ at_path "description"
           ((if negb (10 <=? Str.len (description values))
             then ["Description must be at least 10 characters"] else [])
            ++ (if negb (Str.len (description values) <=? 500)
                then ["Description must be less than 500 characters"]
                else []))
      ++ at_path "department"
           (if Obj.mem (department values) departmentOptions
            then [] else ["Invalid enum value"])
      ++ at_path "code"
           ((if negb (2 <=? Str.len (code values))
             then ["Class code must be at least 2 characters"] else [])
            ++ (if negb (Str.len (code values) <=? 10)
                then ["Class code must be less than 10 characters"] else [])
            ++ (if alphanumeric (code values)
                then [] else ["Class code must be alphanumeric"]))
      ++ at_path "schedule"
           (if negb (1 <=? Str.len (schedule values))
            then ["Schedule is required"] else [])
      ++ at_path "term"
           (if negb (1 <=? Str.len (term values))
            then ["Term is required"] else [])
      ++ at_path "status"
           (if Obj.mem (status values) ["active"; "inactive"]
            then [] else ["Invalid enum value"])
    with
    | [] => inr (normalized values)
    | issues => inl issues
    end.
Proof.
  unfold editClassSchema, normalized, runEnum.
  cbn [runChecks titleChecks descriptionChecks codeChecks scheduleChecks
       termChecks].
  rewrite !Nat.ltb_antisym.
  destruct (3 <=? Str.len (title values));
    destruct (Str.len (title values) <=? 100);
    destruct (10 <=? Str.len (description values));
    destruct (Str.len (description values) <=? 500);
    destruct (2 <=? Str.len (code values));
    destruct (Str.len (code values) <=? 10);
    destruct (alphanumeric (code values));
    reflexivity.
Qed.

Lemma acceptable_accepted (values : FormData) :
  acceptable values = true ->
  editClassSchema values = inr (normalized values).
Proof.
  unfold acceptable. intros H.
  repeat (apply andb_prop in H as [H ?]).
  rewrite editClassSchema_unfolded.
  repeat match goal with E : _ = true |- _ => rewrite E; clear E end.
  reflexivity.
Qed.

Lemma unacceptable_rejected (values : FormData) :
  acceptable values = false ->
  exists issues, editClassSchema values = inl issues /\ issues <> [].
Proof.
  rewrite editClassSchema_unfolded. unfold acceptable.
  do 11 next_check.
  discriminate.
Qed.

(** X15.  [editClassSchema] accepts exactly the payloads within the bounds
    as they were typed: a title of 3 to 100 characters, a description of
    10 to 500, a code of 2 to 10 letters and digits, a schedule and a term
    that are not empty, a department and a status of the enumerations;
    the payload it hands on is that payload with its text fields trimmed
    (blanks, line breaks and no-break spaces removed at both ends).  The
    lengths are taken before the trimming.  This is for every payload
    whose text has its code units below 256. *)
Theorem editClassSchema_accepts_exactly (values formData : FormData) :
  editClassSchema values = inr formData
  <-> acceptable values = true /\ formData = normalized values.
Proof.
  split.
  - intros H. destruct (acceptable values) eqn:Hacc.
    + rewrite (acceptable_accepted values Hacc) in H.
      injection H as <-. auto.
    + destruct (unacceptable_rejected values Hacc) as (issues & Hrej & _).
      congruence.
  - intros [Hacc ->]. now apply acceptable_accepted.
Qed.

Lemma at_path_paths (p : string) (msgs : list string) :
  Forall (fun i => path i = p) (at_path p msgs).
Proof.
  unfold at_path. apply Forall_forall. intros i Hin.
  apply in_map_iff in Hin as (m & <- & _). reflexivity.
Qed.

(** X16.  A payload that [editClassSchema] rejects comes back with at
    least one violation, every violation names one of the seven fields of
    the form, and a title shorter than 3 characters is reported under
    "title" with its message. *)
Theorem rejected_payload_names_fields
    (values : FormData) (issues : list Issue) :
  editClassSchema values = inl issues ->
  issues <> []
  /\ Forall (fun i => In (path i) fields) issues
  /\ (Str.len (title values) < 3 ->
      In {| path := "title";
            reason := "Title must be at least 3 characters" |} issues).
Proof.
  intros H. split; [|split].
  - destruct (acceptable values) eqn:Hacc.
    + rewrite (acceptable_accepted values Hacc) in H. discriminate.
    + destruct (unacceptable_rejected values Hacc) as (found & Hrej & Hne).
      congruence.
  - rewrite editClassSchema_unfolded in H.
    match type of H with
    | match ?l with _ => _ end = _ =>
        assert (Hall : Forall (fun i => In (path i) fields) l);
        [|destruct l; [discriminate | injection H as <-; exact Hall]]
    end.
    repeat (apply Forall_app; split);
      (eapply Forall_impl; [|apply at_path_paths]);
      intros i ->; cbn; tauto.
  - intros Hshort. rewrite editClassSchema_unfolded in H.
    apply Nat.lt_nge, Nat.leb_nle in Hshort. rewrite Hshort in H.
    cbn [negb app at_path List.map] in H. injection H as <-. now left.
Qed.

Lemma toUpperCase_length (s : string) :
  Str.len (Str.toUpperCase s) = Str.len s.
Proof.
  unfold Str.len, Str.toUpperCase.
  induction s as [|c s IH]; [reflexivity|]. cbn. now rewrite IH.
Qed.

Lemma to_upper_alnum (c : ascii) :
  Char.is_upper c || Char.is_lower c || Char.is_digit c = true ->
  Char.is_upper (Char.to_upper c) || Char.is_digit (Char.to_upper c) = true.
Proof. by_cases_on c. Qed.

Lemma upper_or_digit_alnum (c : ascii) :
  Char.is_upper c || Char.is_digit c = true ->
  Char.is_upper c || Char.is_lower c || Char.is_digit c = true.
Proof. by_cases_on c. Qed.

(** X17.  The code that a class edit stores passes the schema again and is
    stored unchanged by the next edit: for a code that passes the checks
    of the schema, its upper-cased form has the same length, consists of
    upper-case letters and digits only, passes the same checks, comes out
    of them as it is and is its own upper-cased form. *)
Theorem stored_code_is_stable (s : string) :
  fst (runChecks codeChecks s) = [] ->
  Str.len (Str.toUpperCase s) = Str.len s
  /\ Str.forallb (fun c => Char.is_upper c || Char.is_digit c)
                 (Str.toUpperCase s) = true
  /\ runChecks codeChecks (Str.toUpperCase s) = ([], Str.toUpperCase s)
  /\ Str.toUpperCase (Str.toUpperCase s) = Str.toUpperCase s.
Proof.
  intros H. destruct (runChecks_code s H) as [[Hmin Hmax] Hre].
  assert (Hup : Str.forallb (fun c => Char.is_upper c || Char.is_digit c)
                            (Str.toUpperCase s) = true).
  { unfold alphanumeric in Hre. apply andb_prop in Hre as [_ Hre].
    unfold Str.toUpperCase. clear - Hre.
    induction s as [|c s IH]; [reflexivity|]. cbn [Str.forallb Str.map] in *.
    apply andb_prop in Hre as [Hc Hs].
    now rewrite (to_upper_alnum c Hc), (IH Hs). }
  assert (Hre' : alphanumeric (Str.toUpperCase s) = true).
  { unfold alphanumeric. apply andb_true_intro. split.
    - destruct s; [cbn in Hmin; lia | reflexivity].
    - clear - Hup. induction (Str.toUpperCase s) as [|c u IH]; [reflexivity|].
      cbn [Str.forallb] in *. apply andb_prop in Hup as [Hc Hu].
      now rewrite (upper_or_digit_alnum c Hc), (IH Hu). }
  split; [apply toUpperCase_length|]. split; [exact Hup|]. split.
  - cbn [runChecks codeChecks]. rewrite toUpperCase_length, Hre'.
    apply Nat.ltb_ge in Hmin. apply Nat.ltb_ge in Hmax.
    rewrite Hmin, Hmax. now rewrite (trim_alphanumeric _ Hre').
  - unfold Str.toUpperCase. clear. induction s as [|c s IH]; [reflexivity|].
    cbn [Str.map]. now rewrite to_upper_idem, IH.
Qed.

Lemma stored_code_is_stable_witness :
  runChecks codeChecks (Str.toUpperCase "cs101") = ([], "CS101").
Proof.
  exact (proj1 (proj2 (proj2 (stored_code_is_stable "cs101" eq_refl)))).
Defined.

Lemma editClassSchema_accepts_exactly_witness :
  editClassSchema MoreSamples.blankTitleForm
  = inr (normalized MoreSamples.blankTitleForm)
  /\ title (normalized MoreSamples.blankTitleForm) = "A".
Proof.
  split; [|reflexivity].
  apply (editClassSchema_accepts_exactly MoreSamples.blankTitleForm
           (normalized MoreSamples.blankTitleForm)).
  split; reflexivity.
Defined.

Lemma rejected_payload_names_fields_witness :
  List.map path
    [ {| path := "title"; reason := "Title must be at least 3 characters" |};
      {| path := "description";
         reason := "Description must be at least 10 characters" |};
      {| path := "department"; reason := "Invalid enum value" |};
      {| path := "code"; reason := "Class code must be alphanumeric" |};
      {| path := "schedule"; reason := "Schedule is required" |};
      {| path := "status"; reason := "Invalid enum value" |} ]
  = ["title"; "description"; "department"; "code"; "schedule"; "status"]
  /\ In {| path := "title"; reason := "Title must be at least 3 characters" |}
        [ {| path := "title"; reason := "Title must be at least 3 characters" |};
          {| path := "description";
             reason := "Description must be at least 10 characters" |};
          {| path := "department"; reason := "Invalid enum value" |};
          {| path := "code"; reason := "Class code must be alphanumeric" |};
          {| path := "schedule"; reason := "Schedule is required" |};
          {| path := "status"; reason := "Invalid enum value" |} ].
Proof.
  split; [reflexivity|].
  refine (proj2 (proj2 (rejected_payload_names_fields MoreSamples.badForm _ _)) _).
  - reflexivity.
  - cbn. lia.
Defined.

Section AnyWorld.
Context {W : Type}.
Variable serve : request -> W -> response * W.
Variable clock : W -> string * W.

(** [handleSubmit] clears [loading] on every path and never touches the
    errors of the form. *)
Lemma handleSubmit_state (props : Props) (formData : FormData)
    (s : State) (w : W) :
  loading (final (run serve clock (handleSubmit props formData) s w)) = false
  /\ errors (final (run serve clock (handleSubmit props formData) s w))
     = errors s.
Proof.
  unfold handleSubmit. cbn [run].
  destruct (clock w) as [now w1]. cbn [run].
  destruct (serve (classUpdate props formData now) w1) as [r w2].
  destruct (error r); split; reflexivity.
Qed.

(** X18.  Whatever the boundary answers, [handleSubmit] of the class
    dialog ends with [loading] cleared and the errors of the form
    untouched; when the update is rejected it makes one call, the error
    toast, so the listener is not called and the dialog is not closed;
    when it is accepted the listener is called before the dialog is
    closed. *)
Theorem class_submit_settles
    (props : Props) (formData : FormData) (s : State) (w : W) :
  let r := fst (serve (classUpdate props formData (fst (clock w)))
                      (snd (clock w))) in
  let out := run serve clock (handleSubmit props formData) s w in
  loading (final out) = false
  /\ errors (final out) = errors s
  /\ (forall e, error r = Some e ->
        events (trace out)
        = [ToastError (orElse (message e) "Failed to update class")])
  /\ (error r = None ->
        events (trace out)
        = [ OnClassUpdated (data r);
            ToastSuccess "Class updated successfully!";
            SetOpen false ]).
Proof.
  cbv zeta. unfold handleSubmit. cbn [run].
  destruct (clock w) as [now w1]. cbn [fst snd run].
  destruct (serve (classUpdate props formData now) w1) as [r w2].
  cbn [fst]. destruct (error r) as [e|]; cbn; repeat split;
    try discriminate; intros; congruence.
Qed.

(** X19.  The patch of a class edit names the seven fields of the form and
    [updated_at], nothing else: a row that takes it keeps every other
    column, its [id] and its [created_at] among them, and holds the
    reading of the clock in [updated_at]. *)
Theorem class_patch_keeps_other_columns
    (formData : FormData) (now : string) (row : list (string * value))
    (k : string) :
  ~ In k patched ->
  match classPatch formData now with
  | VObj fs => Obj.keys fs = patched
  | _ => False
  end
  /\ Js.prop (Store.applyPatch (VObj row) (classPatch formData now)) k
     = Js.prop (VObj row) k
  /\ Js.prop (Store.applyPatch (VObj row) (classPatch formData now))
             "updated_at"
     = VStr now.
Proof.
  intros Hk. split; [reflexivity|].
  unfold Store.applyPatch, classPatch, Js.prop.
  rewrite !ObjFacts.get_fold_assign
    by (apply ObjFacts.nodup_keys_NoDup; reflexivity).
  split; [|reflexivity].
  rewrite ObjFacts.get_None_keys; [reflexivity | exact Hk].
Qed.

(** X20.  A payload within the bounds reaches the boundary trimmed: the
    submission of the form clears the errors of the form and issues one
    update of [classes], scoped to the identifier of the class, whose
    patch carries the trimmed title, description, schedule and term, the
    upper-cased code and the reading of the clock.  This is for every
    payload whose text has its code units below 256. *)
Theorem accepted_payload_is_sent_trimmed
    (props : Props) (values : FormData) (s : State) (w : W) :
  acceptable values = true ->
  let out := run serve clock (onSubmit props values) s w in
  requests (trace out)
  = [UpdateSingle "classes"
       (VObj [ ("title", VStr (Str.trim (title values)));
               ("description", VStr (Str.trim (description values)));
               ("department", VStr (department values));
               ("code", VStr (Str.toUpperCase (code values)));
               ("schedule", VStr (Str.trim (schedule values)));
               ("term", VStr (Str.trim (term values)));
               ("status", VStr (status values));
               ("updated_at", VStr (fst (clock w))) ])
       "id" (Js.prop (classData props) "id")]
  /\ errors (final out) = []
  /\ loading (final out) = false.
Proof.
  intros Hacc. cbv zeta.
  assert (Hcode : Str.trim (code values) = code values).
  { apply trim_alphanumeric. unfold acceptable in Hacc.
    repeat (apply andb_prop in Hacc as [Hacc ?]). assumption. }
  unfold onSubmit. rewrite (acceptable_accepted values Hacc). cbn [run].
  split; [|split].
  - rewrite handleSubmit_requests. unfold classUpdate, classPatch, normalized.
    cbn [title description department code schedule term status].
    now rewrite Hcode.
  - exact (proj2 (handleSubmit_state props (normalized values)
                    (setErrors [] s) w)).
  - exact (proj1 (handleSubmit_state props (normalized values)
                    (setErrors [] s) w)).
Qed.

End AnyWorld.

Lemma class_patch_keeps_other_columns_witness :
  Js.prop (Store.applyPatch Samples.classRow
             (classPatch Samples.classForm "2025-06-01T00:00:00.000Z"))
          "created_at"
  = VStr "2025-01-01T00:00:00.000Z".
Proof.
  refine (proj1 (proj2 (class_patch_keeps_other_columns
                          Samples.classForm "2025-06-01T00:00:00.000Z"
                          [ ("id", VStr "c1"); ("title", VStr "Algorithms");
                            ("description",
                              VStr "Design and analysis of algorithms");
                            ("department", VStr "Computer Science");
                            ("code", VStr "CS101");
                            ("schedule", VStr "Mon 2-3 PM");
                            ("term", VStr "Spring 2025");
                            ("status", VStr "active");
                            ("created_at", VStr "2025-01-01T00:00:00.000Z");
                            ("updated_at", VStr "2025-04-01T00:00:00.000Z") ]
                          "created_at" _))).
  cbn. intuition discriminate.
Defined.

Lemma accepted_payload_is_sent_trimmed_witness :
  requests (trace (run Script.serve Script.clock
                       (onSubmit Samples.classProps MoreSamples.blankTitleForm)
                       Samples.classDialog Samples.classUpdateAccepted))
  = [UpdateSingle "classes"
       (VObj [ ("title", VStr "A");
               ("description", VStr "Design and analysis of algorithms");
               ("department", VStr "Computer Science");
               ("code", VStr "CS101");
               ("schedule", VStr "Mon 2-3 PM");
               ("term", VStr "Spring 2025");
               ("status", VStr "active");
               ("updated_at", VStr "2025-04-01T00:00:00.000Z") ])
       "id" (VStr "c1")].
Proof.
  exact (proj1 (accepted_payload_is_sent_trimmed Script.serve Script.clock
                  Samples.classProps MoreSamples.blankTitleForm
                  Samples.classDialog Samples.classUpdateAccepted eq_refl)).
Defined.

End ClassMoreFacts.

(** ** The two mutation paths, step by step *)

Module MutationPipeline.

Import CaseConversion ClassPayload ClassMoreFacts.

Section AnyWorld.
Context {W : Type}.
Variable serve : request -> W -> response * W.
Variable clock : W -> string * W.

(** The form of the grading-criteria dialog submits nothing while its text
    is empty. *)
Lemma empty_criteria_not_submitted
    (props : EditGradingCriteriaDialog.Props)
    (seen s : EditGradingCriteriaDialog.State) (w : W) :
  EditGradingCriteriaDialog.gradingCriteria seen = "" ->
  run serve clock (CriteriaForm.onSubmit props seen) s w
  = {| final := s; world := w; trace := [] |}.
Proof. intros H. unfold CriteriaForm.onSubmit. now rewrite H. Qed.

(** C6, as the code has it.  A successful class edit validates the payload
    against the schema, normalizes it (text fields trimmed, code
    upper-cased), writes the patch in persisted form, submits it as one
    update scoped to the identifier of the class, reads the row back and
    passes that row to the listener as the boundary returned it, not
    converted to canonical form.  A successful criteria edit is validated
    by its form for a text that is not empty and by nothing else, is not
    normalized (the text is sent as it was typed), is converted to
    persisted form with the current time as [updated_at], submitted as
    one update scoped to the identifier of the assignment, and the row
    read back is converted to canonical form and passed to the
    listener. *)
Theorem mutation_paths_step_by_step
    (cprops : EditGradingCriteriaDialog.Props)
    (seen cs : EditGradingCriteriaDialog.State)
    (kprops : EditClassDialog.Props) (values : EditClassDialog.FormData)
    (ks : EditClassDialog.State) (w wc wk : W) (rc rk : value) :
  let now := fst (clock w) in
  let text := EditGradingCriteriaDialog.gradingCriteria seen in
  let criteriaPatch :=
    VObj [ ("grading_criteria", VStr text); ("updated_at", VStr now) ] in
  let classPatch :=
    VObj [ ("title", VStr (Str.trim (EditClassDialog.title values)));
           ("description", VStr (Str.trim (EditClassDialog.description values)));
           ("department", VStr (EditClassDialog.department values));
           ("code", VStr (Str.toUpperCase (Str.trim (EditClassDialog.code values))));
           ("schedule", VStr (Str.trim (EditClassDialog.schedule values)));
           ("term", VStr (Str.trim (EditClassDialog.term values)));
           ("status", VStr (EditClassDialog.status values));
           ("updated_at", VStr now) ] in
  text <> "" ->
  acceptable values = true ->
  serve (UpdateSingle "assignments" criteriaPatch "id"
           (Js.prop (EditGradingCriteriaDialog.assignment cprops) "id"))
        (snd (clock w))
  = ({| data := rc; error := None |}, wc) ->
  serve (UpdateSingle "classes" classPatch "id"
           (Js.prop (EditClassDialog.classData kprops) "id"))
        (snd (clock w))
  = ({| data := rk; error := None |}, wk) ->
  trace (run serve clock (CriteriaForm.onSubmit cprops seen) cs w)
  = [ Requested (UpdateSingle "assignments" criteriaPatch "id"
                   (Js.prop (EditGradingCriteriaDialog.assignment cprops) "id"));
      Emitted (OnAssignmentUpdated (transformToCamelCase rc));
      Emitted (OnOpenChange false);
      Emitted (ToastSuccess "Grading criteria updated successfully") ]
  /\ persisted criteriaPatch = true
  /\ trace (run serve clock (EditClassDialog.onSubmit kprops values) ks w)
     = [ Requested (UpdateSingle "classes" classPatch "id"
                      (Js.prop (EditClassDialog.classData kprops) "id"));
         Emitted (OnClassUpdated rk);
         Emitted (ToastSuccess "Class updated successfully!");
         Emitted (SetOpen false) ]
  /\ persisted classPatch = true
  /\ EditClassDialog.editClassSchema values = inr (normalized values)
  /\ (forall blank s' w',
        EditGradingCriteriaDialog.gradingCriteria blank = "" ->
        trace (run serve clock (CriteriaForm.onSubmit cprops blank) s' w')
        = [])
  /\ (forall refused issues s' w',
        EditClassDialog.editClassSchema refused = inl issues ->
        trace (run serve clock (EditClassDialog.onSubmit kprops refused) s' w')
        = []).
Proof.
  cbv zeta. intros Htext Hacc Hc Hk.
  split.
  { unfold CriteriaForm.onSubmit.
    apply String.eqb_neq in Htext. rewrite Htext.
    unfold EditGradingCriteriaDialog.handleSubmit. cbn [run].
    destruct (clock w) as [now w1]. cbn [fst snd run] in *.
    unfold EditGradingCriteriaDialog.criteriaUpdate.
    rewrite MutationFacts.transformedData_fields, Hc. reflexivity. }
  split; [reflexivity|].
  split.
  { unfold EditClassDialog.onSubmit.
    rewrite (acceptable_accepted values Hacc). cbn [run].
    unfold EditClassDialog.handleSubmit. cbn [run].
    destruct (clock w) as [now w1]. cbn [fst snd run] in *.
    unfold EditClassDialog.classUpdate, EditClassDialog.classPatch, normalized.
    cbn [EditClassDialog.title EditClassDialog.description
         EditClassDialog.department EditClassDialog.code
         EditClassDialog.schedule EditClassDialog.term
         EditClassDialog.status].
    rewrite Hk. reflexivity. }
  split; [reflexivity|].
  split; [now apply acceptable_accepted|].
  split.
  - intros blank s' w' H.
    now rewrite (empty_criteria_not_submitted cprops blank s' w' H).
  - intros refused issues s' w' H.
    unfold EditClassDialog.onSubmit. now rewrite H.
Qed.

End AnyWorld.

(** C6, as stated, fails.  After an accepted class edit the listener
    receives the row with its snake-cased keys, which is not the record in
    canonical form; and a criteria edit sends its text as it was typed,
    blanks included, where a normalized text would have been trimmed. *)
Lemma mutation_steps_missing :
  events (trace (run Script.serve Script.clock
                     (EditClassDialog.onSubmit Samples.classProps Samples.classForm)
                     Samples.classDialog Samples.classUpdateAccepted))
  = [ OnClassUpdated Samples.classRow;
      ToastSuccess "Class updated successfully!";
      SetOpen false ]
  /\ Js.prop Samples.classRow "updated_at" = VStr "2025-04-01T00:00:00.000Z"
  /\ Js.prop Samples.classRow "updatedAt" = VUndefined
  /\ canonical Samples.classRow = false
  /\ Samples.classRow <> transformToCamelCase Samples.classRow
  /\ requests (trace (run Script.serve Script.clock
                          (CriteriaForm.onSubmit Samples.criteriaProps
                                                 PipelineSamples.paddedCriteria)
                          PipelineSamples.paddedCriteria
                          Samples.criteriaUpdateAccepted))
     = [UpdateSingle "assignments"
          (VObj [ ("grading_criteria", VStr "  Content 40, form 60 ");
                  ("updated_at", VStr "2025-04-01T00:00:00.000Z") ])
          "id" (VStr "a1")]
  /\ Str.trim "  Content 40, form 60 " = "Content 40, form 60"
  /\ "  Content 40, form 60 " <> Str.trim "  Content 40, form 60 ".
Proof.
  repeat split; try reflexivity; vm_compute; discriminate.
Qed.

Lemma mutation_paths_step_by_step_witness :
  trace (run Script.serve Script.clock
             (CriteriaForm.onSubmit Samples.criteriaProps
                                    PipelineSamples.paddedCriteria)
             PipelineSamples.paddedCriteria Samples.criteriaUpdateAccepted)
  = [ Requested
        (UpdateSingle "assignments"
           (VObj [ ("grading_criteria", VStr "  Content 40, form 60 ");
                   ("updated_at", VStr "2025-04-01T00:00:00.000Z") ])
           "id" (VStr "a1"));
      Emitted (OnAssignmentUpdated
                 (transformToCamelCase Samples.updatedAssignmentRow));
      Emitted (OnOpenChange false);
      Emitted (ToastSuccess "Grading criteria updated successfully") ]
  /\ trace (run Script.serve Script.clock
                (EditClassDialog.onSubmit Samples.classProps
                                          PipelineSamples.paddedForm)
                Samples.classDialog Samples.criteriaUpdateAccepted)
     = [ Requested
           (UpdateSingle "classes"
              (VObj [ ("title", VStr "Algorithms");
                      ("description", VStr "Design and analysis of algorithms");
                      ("department", VStr "Computer Science");
                      ("code", VStr "CS101");
                      ("schedule", VStr "Mon 2-3 PM");
                      ("term", VStr "Spring 2025");
                      ("status", VStr "active");
                      ("updated_at", VStr "2025-04-01T00:00:00.000Z") ])
              "id" (VStr "c1"));
         Emitted (OnClassUpdated Samples.updatedAssignmentRow);
         Emitted (ToastSuccess "Class updated successfully!");
         Emitted (SetOpen false) ].
Proof.
  refine ((fun H => conj (proj1 H) (proj1 (proj2 (proj2 H)))) _).
  apply (mutation_paths_step_by_step Script.serve Script.clock
           Samples.criteriaProps PipelineSamples.paddedCriteria
           PipelineSamples.paddedCriteria
           Samples.classProps PipelineSamples.paddedForm Samples.classDialog
           Samples.criteriaUpdateAccepted
           {| Script.answers := []; Script.times := [] |}
           {| Script.answers := []; Script.times := [] |}
           Samples.updatedAssignmentRow Samples.updatedAssignmentRow);
    try reflexivity.
  discriminate.
Defined.

(** [trim] removes the no-break space as it removes the blank. *)
Example trim_removes_nbsp :
  Str.trim (EditClassDialog.title PipelineSamples.nbspTitleForm) = "A"
  /\ EditClassDialog.editClassSchema PipelineSamples.nbspTitleForm
     = inr (normalized PipelineSamples.nbspTitleForm)
  /\ EditClassDialog.title (normalized PipelineSamples.nbspTitleForm) = "A".
Proof. repeat split; reflexivity. Qed.

End MutationPipeline.
